(** * The CustomPodAutoscaler reconciliation loop

    A shallow embedding of [controllers/custompodautoscaler_controller.go]:
    the [Reconcile] method of [CustomPodAutoscalerReconciler], the helpers
    [cpaEnvVars] and [createEnvVarsFromConfig], and the Kubernetes data they
    handle.  Calls to the cluster (controller-runtime client, scale client,
    the [K8sReconciler] collaborator) are threaded through an abstract world
    and logged, in order, in a call trace. *)

From Stdlib Require Import ZArith Ascii String List Bool Lia.
From stdpp Require Import base option list strings gmap.
Import ListNotations.

Local Open Scope string_scope.
Local Open Scope list_scope.
Local Open Scope Z_scope.

(** ** Go's [strconv.ParseInt], base 10 *)

Module strconv.

Inductive Err := ErrSyntax | ErrRange.

(** [*strconv.NumError] *)
Record NumError := { Func : string; Num : string; Err_ : Err }.

Definition syntaxError (fn str : string) : NumError :=
  {| Func := fn; Num := str; Err_ := ErrSyntax |}.
Definition rangeError (fn str : string) : NumError :=
  {| Func := fn; Num := str; Err_ := ErrRange |}.

Definition maxUint64 : Z := 2 ^ 64 - 1.

Definition byte_of (c : ascii) : Z := Z.of_N (N_of_ascii c).

(** The digit loop of [ParseUint] for [base = 10]: [n] is the value read so
    far, [s0] the whole input (for the error value). *)
Fixpoint parseDigits (s0 : string) (maxVal n : Z) (s : string)
  : Z * option NumError :=
  match s with
  | EmptyString => (n, None)
  | String c rest =>
      if (48 <=? byte_of c) && (byte_of c <=? 57) then
        let d := byte_of c - 48 in
        if maxUint64 / 10 + 1 <=? n then
          (maxVal, Some (rangeError "ParseUint" s0))
        else
          let n1 := n * 10 + d in
          if maxVal <? n1 then (maxVal, Some (rangeError "ParseUint" s0))
          else parseDigits s0 maxVal n1 rest
      else (0, Some (syntaxError "ParseUint" s0))
  end.

(** [strconv.ParseUint(s, 10, bitSize)] for [0 < bitSize <= 64]. *)
Definition ParseUint (s : string) (bitSize : Z) : Z * option NumError :=
  match s with
  | EmptyString => (0, Some (syntaxError "ParseUint" s))
  | _ => parseDigits s (2 ^ bitSize - 1) 0 s
  end.

(** [strconv.ParseInt(s, 10, bitSize)] for [0 < bitSize <= 64]. *)
Definition ParseInt (s : string) (bitSize : Z) : Z * option NumError :=
  match s with
  | EmptyString => (0, Some (syntaxError "ParseInt" s))
  | String c rest =>
      let s0 := s in
      let '(neg, s) :=
        if Ascii.eqb c "+" then (false, rest)
        else if Ascii.eqb c "-" then (true, rest)
        else (false, s) in
      let '(un, err) := ParseUint s bitSize in
      match err with
      | Some {| Err_ := ErrSyntax |} => (0, Some (syntaxError "ParseInt" s0))
      | _ =>
          let cutoff := 2 ^ (bitSize - 1) in
          if negb neg && (cutoff <=? un) then
            (cutoff - 1, Some (rangeError "ParseInt" s0))
          else if neg && (cutoff <? un) then
            (- cutoff, Some (rangeError "ParseInt" s0))
          else
            (if neg then - un else un, None)
      end
  end.

End strconv.

(** Go's conversion [int32(x)] of an [int64]: two's-complement truncation. *)
Definition int32 (x : Z) : Z := (x + 2 ^ 31) mod 2 ^ 32 - 2 ^ 31.

(** ** Kubernetes API types

    Only the fields the controller reads, writes or passes on are kept.  A Go
    map or slice that the code tests against [nil] is an [option]; a map that
    is only read is a [gmap] (reading a nil map behaves as reading an empty
    one). *)

Module metav1.

Record TypeMeta := { Kind : string; APIVersion : string }.

Record ObjectMeta := {
  Name : string;
  Namespace : string;
  Labels : option (gmap string string);
  Annotations : gmap string string;
  DeletionTimestamp : option Z;
}.

Definition emptyObjectMeta : ObjectMeta :=
  {| Name := ""; Namespace := ""; Labels := None; Annotations := ∅;
     DeletionTimestamp := None |}.

(** [apierrors.StatusError] reasons the controller produces or tests. *)
Inductive StatusReason :=
  StatusReasonNotFound | StatusReasonBadRequest | StatusReasonOther (r : string).

End metav1.

Module autoscalingv1.

Record CrossVersionObjectReference := {
  Kind : string;
  Name : string;
  APIVersion : string;
}.

Record ScaleSpec := { Replicas : Z }.
Record ScaleStatus := { StatusReplicas : Z; Selector : string }.

Record Scale := {
  TypeMeta : metav1.TypeMeta;
  ObjectMeta : metav1.ObjectMeta;
  Spec : ScaleSpec;
  Status : ScaleStatus;
}.

End autoscalingv1.

Module schema.
Record GroupVersion := { Group : string; Version : string }.
Record GroupResource := { GRGroup : string; Resource : string }.
End schema.

Module corev1.

Record EnvVar := { Name : string; Value : string }.

Record Container := {
  ContainerName : string;
  Image : string;
  Env : option (list EnvVar);
}.

Record PodSpec := {
  Containers : list Container;
  ServiceAccountName : string;
}.

Record PodTemplateSpec := {
  TemplateObjectMeta : metav1.ObjectMeta;
  TemplateSpec : PodSpec;
}.

Record Pod := { PodObjectMeta : metav1.ObjectMeta; Spec : PodSpec }.

Record ServiceAccount := { ObjectMeta : metav1.ObjectMeta }.

End corev1.

Module rbacv1.

Record PolicyRule := {
  APIGroups : list string;
  Resources : list string;
  Verbs : list string;
}.

Record Role := { ObjectMeta : metav1.ObjectMeta; Rules : list PolicyRule }.

Record Subject := { Kind : string; Name : string; Namespace : string }.
Record RoleRef := { RefKind : string; RefName : string; APIGroup : string }.

Record RoleBinding := {
  BindingObjectMeta : metav1.ObjectMeta;
  Subjects : list Subject;
  BindingRoleRef : RoleRef;
}.

End rbacv1.

Module reconcile.
(** [reconcile.Result]; [RequeueAfter] is a duration in nanoseconds. *)
Record Result := { Requeue : bool; RequeueAfter : Z }.
Definition empty : Result := {| Requeue := false; RequeueAfter := 0 |}.
End reconcile.

Module types.
Record NamespacedName := { Namespace : string; Name : string }.
End types.

(** ** The declared resource, [custompodautoscalercomv1] *)

Module cpav1.

Record CustomPodAutoscalerConfig := { Name : string; Value : string }.

(** Modelled from the spec: the v1 [CustomPodAutoscalerSpec] declaration is
    not among the sources (only the older v1alpha1 one is); its fields are
    those section 3 of the specification lists and [Reconcile] dereferences.
    Each provisioning toggle is a [*bool]: [None] is the nil pointer. *)
Record CustomPodAutoscalerSpec := {
  Template : corev1.PodTemplateSpec;
  ScaleTargetRef : autoscalingv1.CrossVersionObjectReference;
  Config : list CustomPodAutoscalerConfig;
  ProvisionRole : option bool;
  ProvisionRoleBinding : option bool;
  ProvisionServiceAccount : option bool;
  ProvisionPod : option bool;
  RoleRequiresMetricsServer : option bool;
  RoleRequiresArgoRollouts : option bool;
}.

Record CustomPodAutoscaler := {
  TypeMeta : metav1.TypeMeta;
  ObjectMeta : metav1.ObjectMeta;
  Spec : CustomPodAutoscalerSpec;
}.

(** Field assignments [instance.Spec.X = &v], one per toggle. *)
Definition setProvisionRole (v : option bool) (i : CustomPodAutoscaler) :=
  let s := Spec i in
  {| TypeMeta := TypeMeta i; ObjectMeta := ObjectMeta i;
     Spec := {| Template := Template s; ScaleTargetRef := ScaleTargetRef s;
                Config := Config s; ProvisionRole := v;
                ProvisionRoleBinding := ProvisionRoleBinding s;
                ProvisionServiceAccount := ProvisionServiceAccount s;
                ProvisionPod := ProvisionPod s;
                RoleRequiresMetricsServer := RoleRequiresMetricsServer s;
                RoleRequiresArgoRollouts := RoleRequiresArgoRollouts s |} |}.

Definition setProvisionRoleBinding (v : option bool) (i : CustomPodAutoscaler) :=
  let s := Spec i in
  {| TypeMeta := TypeMeta i; ObjectMeta := ObjectMeta i;
     Spec := {| Template := Template s; ScaleTargetRef := ScaleTargetRef s;
                Config := Config s; ProvisionRole := ProvisionRole s;
                ProvisionRoleBinding := v;
                ProvisionServiceAccount := ProvisionServiceAccount s;
                ProvisionPod := ProvisionPod s;
                RoleRequiresMetricsServer := RoleRequiresMetricsServer s;
                RoleRequiresArgoRollouts := RoleRequiresArgoRollouts s |} |}.

Definition setProvisionServiceAccount (v : option bool) (i : CustomPodAutoscaler) :=
  let s := Spec i in
  {| TypeMeta := TypeMeta i; ObjectMeta := ObjectMeta i;
     Spec := {| Template := Template s; ScaleTargetRef := ScaleTargetRef s;
                Config := Config s; ProvisionRole := ProvisionRole s;
                ProvisionRoleBinding := ProvisionRoleBinding s;
                ProvisionServiceAccount := v;
                ProvisionPod := ProvisionPod s;
                RoleRequiresMetricsServer := RoleRequiresMetricsServer s;
                RoleRequiresArgoRollouts := RoleRequiresArgoRollouts s |} |}.

Definition setProvisionPod (v : option bool) (i : CustomPodAutoscaler) :=
  let s := Spec i in
  {| TypeMeta := TypeMeta i; ObjectMeta := ObjectMeta i;
     Spec := {| Template := Template s; ScaleTargetRef := ScaleTargetRef s;
                Config := Config s; ProvisionRole := ProvisionRole s;
                ProvisionRoleBinding := ProvisionRoleBinding s;
                ProvisionServiceAccount := ProvisionServiceAccount s;
                ProvisionPod := v;
                RoleRequiresMetricsServer := RoleRequiresMetricsServer s;
                RoleRequiresArgoRollouts := RoleRequiresArgoRollouts s |} |}.

Definition setRoleRequiresMetricsServer (v : option bool) (i : CustomPodAutoscaler) :=
  let s := Spec i in
  {| TypeMeta := TypeMeta i; ObjectMeta := ObjectMeta i;
     Spec := {| Template := Template s; ScaleTargetRef := ScaleTargetRef s;
                Config := Config s; ProvisionRole := ProvisionRole s;
                ProvisionRoleBinding := ProvisionRoleBinding s;
                ProvisionServiceAccount := ProvisionServiceAccount s;
                ProvisionPod := ProvisionPod s;
                RoleRequiresMetricsServer := v;
                RoleRequiresArgoRollouts := RoleRequiresArgoRollouts s |} |}.

Definition setRoleRequiresArgoRollouts (v : option bool) (i : CustomPodAutoscaler) :=
  let s := Spec i in
  {| TypeMeta := TypeMeta i; ObjectMeta := ObjectMeta i;
     Spec := {| Template := Template s; ScaleTargetRef := ScaleTargetRef s;
                Config := Config s; ProvisionRole := ProvisionRole s;
                ProvisionRoleBinding := ProvisionRoleBinding s;
                ProvisionServiceAccount := ProvisionServiceAccount s;
                ProvisionPod := ProvisionPod s;
                RoleRequiresMetricsServer := RoleRequiresMetricsServer s;
                RoleRequiresArgoRollouts := v |} |}.

(** The write [podLabels[k] = v] through the map shared with
    [instance.Spec.Template.ObjectMeta.Labels]. *)
Definition setTemplateLabels (l : option (gmap string string))
    (i : CustomPodAutoscaler) :=
  let s := Spec i in
  let m := corev1.TemplateObjectMeta (Template s) in
  {| TypeMeta := TypeMeta i; ObjectMeta := ObjectMeta i;
     Spec := {| Template :=
                  {| corev1.TemplateObjectMeta :=
                       {| metav1.Name := metav1.Name m;
                          metav1.Namespace := metav1.Namespace m;
                          metav1.Labels := l;
                          metav1.Annotations := metav1.Annotations m;
                          metav1.DeletionTimestamp := metav1.DeletionTimestamp m |};
                     corev1.TemplateSpec := corev1.TemplateSpec (Template s) |};
                ScaleTargetRef := ScaleTargetRef s;
                Config := Config s; ProvisionRole := ProvisionRole s;
                ProvisionRoleBinding := ProvisionRoleBinding s;
                ProvisionServiceAccount := ProvisionServiceAccount s;
                ProvisionPod := ProvisionPod s;
                RoleRequiresMetricsServer := RoleRequiresMetricsServer s;
                RoleRequiresArgoRollouts := RoleRequiresArgoRollouts s |} |}.

End cpav1.

(** ** Errors, library functions and cluster collaborators *)

(** Go [error] values the controller sees. *)
Inductive error :=
| StatusError (reason : metav1.StatusReason) (message : string)
| NumError (e : strconv.NumError)
| OtherError (message : string).

Module errors.
Definition IsNotFound (err : error) : bool :=
  match err with
  | StatusError metav1.StatusReasonNotFound _ => true
  | _ => false
  end.
Definition NewBadRequest (reason : string) : error :=
  StatusError metav1.StatusReasonBadRequest reason.
End errors.

(** Functions of the Kubernetes libraries that [Reconcile] calls and whose
    source is outside this repository.  [json_Marshal] is
    [json.Marshal(instance.Spec.ScaleTargetRef)]: on a struct of three strings
    encoding/json has no failing case, which [json_Marshal_ok] records (the
    source comments the error branch with "Should not occur"). *)
Record Library := {
  json_Marshal : autoscalingv1.CrossVersionObjectReference → string + error;
  json_Marshal_ok : ∀ ref, ∃ bytes, json_Marshal ref = inl bytes;
  ParseGroupVersion : string → schema.GroupVersion + error;
}.

(** The dynamic type behind the [metav1.Object] handed to
    [K8sReconciler.Reconcile]. *)
Inductive K8sObject :=
| ObjServiceAccount (sa : corev1.ServiceAccount)
| ObjRole (role : rbacv1.Role)
| ObjRoleBinding (rb : rbacv1.RoleBinding)
| ObjPod (pod : corev1.Pod).

(** One entry of the call trace: a call that leaves the process, with its
    arguments. *)
Inductive Call :=
| CallClientGet (key : types.NamespacedName)
| CallClientDelete (obj : cpav1.CustomPodAutoscaler)
| CallScalesGet (ns : string) (gr : schema.GroupResource) (name : string)
| CallScalesUpdate (ns : string) (gr : schema.GroupResource)
    (scale : autoscalingv1.Scale)
| CallReconcile (instance : cpav1.CustomPodAutoscaler) (obj : K8sObject)
    (shouldProvision updateable : bool) (kind : string)
| CallPodCleanup (instance : cpav1.CustomPodAutoscaler).

(** The reconciler's fields [Client], [ScalingClient] and
    [KubernetesResourceReconciler] as transitions of a world [W].  The
    collaborators get the Go values by pointer; they are taken not to write
    to the fields [Reconcile] reads afterwards. *)
Record Collaborators (W : Type) := {
  client_Get : types.NamespacedName → W → (cpav1.CustomPodAutoscaler + error) * W;
  client_Delete : cpav1.CustomPodAutoscaler → W → option error * W;
  scales_Get : string → schema.GroupResource → string → W
               → (autoscalingv1.Scale + error) * W;
  scales_Update : string → schema.GroupResource → autoscalingv1.Scale → W
                  → (autoscalingv1.Scale + error) * W;
  k8s_Reconcile : cpav1.CustomPodAutoscaler → K8sObject → bool → bool → string
                  → W → (reconcile.Result * option error) * W;
  k8s_PodCleanup : cpav1.CustomPodAutoscaler → W → option error * W;
}.
Arguments client_Get {W}.
Arguments client_Delete {W}.
Arguments scales_Get {W}.
Arguments scales_Update {W}.
Arguments k8s_Reconcile {W}.
Arguments k8s_PodCleanup {W}.

(** ** A monad for Go control flow: world, call trace, early exit *)

Record State (W : Type) := { world : W; calls : list Call }.
Arguments world {W}.
Arguments calls {W}.

(** How an invocation ends: a [return result, err] or a [panic]. *)
Inductive Exit :=
| Return (result : reconcile.Result) (err : option error)
| Panic (v : error).

Definition M (W A : Type) : Type := State W → (A + Exit) * State W.

#[global] Instance M_ret {W} : MRet (M W) := λ A a s, (inl a, s).
#[global] Instance M_bind {W} : MBind (M W) := λ A B k m s,
  match m s with
  | (inl a, s') => k a s'
  | (inr e, s') => (inr e, s')
  end.

Definition return_ {W A} (result : reconcile.Result) (err : option error) : M W A :=
  λ s, (inr (Return result err), s).

Definition panic {W A} (v : error) : M W A := λ s, (inr (Panic v), s).

(** A call to a collaborator: run it on the world and log it. *)
Definition call {W A} (c : Call) (f : W → A * W) : M W A :=
  λ s, let '(a, w) := f (world s) in
       (inl a, {| world := w; calls := calls s ++ [c] |}).

(** [*p] on a [*bool]: the nil pointer panics. *)
Definition deref {W} (p : option bool) : M W bool :=
  match p with
  | Some b => mret b
  | None => panic (OtherError "invalid memory address or nil pointer dereference")
  end.

(** Run a function body that always ends in [return] or [panic]. *)
Definition exec {W} (m : M W Empty_set) (w : W) : Exit * State W :=
  match m {| world := w; calls := [] |} with
  | (inl v, _) => match v with end
  | (inr e, s) => (e, s)
  end.

(** ** The controller *)

Definition managedByLabel : string := "app.kubernetes.io/managed-by".
Definition OwnedByLabel : string := "v1.custompodautoscaler.com/owned-by".
Definition PausedReplicasAnnotation : string :=
  "v1.custompodautoscaler.com/paused-replicas".

(** [createEnvVarsFromConfig]: one [append] per config entry. *)
Definition createEnvVarsFromConfig
    (configs : list cpav1.CustomPodAutoscalerConfig) : list corev1.EnvVar :=
  fold_left
    (λ envVars config,
       envVars ++ [ {| corev1.Name := cpav1.Name config;
                       corev1.Value := cpav1.Value config |} ])
    configs [].

(** [cpaEnvVars] *)
Definition cpaEnvVars (cr : cpav1.CustomPodAutoscaler) (scaleTargetRef : string)
  : list corev1.EnvVar :=
  let envVars :=
    [ {| corev1.Name := "scaleTargetRef"; corev1.Value := scaleTargetRef |};
      {| corev1.Name := "namespace";
         corev1.Value := metav1.Namespace (cpav1.ObjectMeta cr) |} ] in
  envVars ++ createEnvVarsFromConfig (cpav1.Config (cpav1.Spec cr)).

(** The defaulting block: six [if instance.Spec.X == nil] tests in source
    order. *)
Definition applyDefaults (instance : cpav1.CustomPodAutoscaler)
  : cpav1.CustomPodAutoscaler :=
  let instance :=
    if cpav1.ProvisionRole (cpav1.Spec instance) is None
    then cpav1.setProvisionRole (Some true) instance else instance in
  let instance :=
    if cpav1.ProvisionRoleBinding (cpav1.Spec instance) is None
    then cpav1.setProvisionRoleBinding (Some true) instance else instance in
  let instance :=
    if cpav1.ProvisionServiceAccount (cpav1.Spec instance) is None
    then cpav1.setProvisionServiceAccount (Some true) instance else instance in
  let instance :=
    if cpav1.ProvisionPod (cpav1.Spec instance) is None
    then cpav1.setProvisionPod (Some true) instance else instance in
  let instance :=
    if cpav1.RoleRequiresMetricsServer (cpav1.Spec instance) is None
    then cpav1.setRoleRequiresMetricsServer (Some false) instance else instance in
  let instance :=
    if cpav1.RoleRequiresArgoRollouts (cpav1.Spec instance) is None
    then cpav1.setRoleRequiresArgoRollouts (Some false) instance else instance in
  instance.

(** [metav1.ObjectMeta{Name: name, Namespace: namespace, Labels: labels}] *)
Definition objectMetaOf (name namespace : string) (labels : gmap string string)
  : metav1.ObjectMeta :=
  {| metav1.Name := name; metav1.Namespace := namespace;
     metav1.Labels := Some labels; metav1.Annotations := ∅;
     metav1.DeletionTimestamp := None |}.

Definition coreRule : rbacv1.PolicyRule :=
  {| rbacv1.APIGroups := [""];
     rbacv1.Resources :=
       ["pods"; "replicationcontrollers"; "replicationcontrollers/scale"];
     rbacv1.Verbs := ["*"] |}.

Definition appsRule : rbacv1.PolicyRule :=
  {| rbacv1.APIGroups := ["apps"];
     rbacv1.Resources :=
       ["deployments"; "deployments/scale"; "replicasets"; "replicasets/scale";
        "statefulsets"; "statefulsets/scale"];
     rbacv1.Verbs := ["*"] |}.

Definition metricsRule : rbacv1.PolicyRule :=
  {| rbacv1.APIGroups :=
       ["metrics.k8s.io"; "custom.metrics.k8s.io"; "external.metrics.k8s.io"];
     rbacv1.Resources := ["*"];
     rbacv1.Verbs := ["*"] |}.

Definition argoRule : rbacv1.PolicyRule :=
  {| rbacv1.APIGroups := ["argoproj.io"];
     rbacv1.Resources := ["rollouts"; "rollouts/scale"];
     rbacv1.Verbs := ["*"] |}.

(** [role.Rules = append(role.Rules, rule)] *)
Definition appendRule (rule : rbacv1.PolicyRule) (role : rbacv1.Role) : rbacv1.Role :=
  {| rbacv1.ObjectMeta := rbacv1.ObjectMeta role;
     rbacv1.Rules := rbacv1.Rules role ++ [rule] |}.

(** The body of the loop over [podSpec.Containers]. *)
Definition injectEnv (instance : cpav1.CustomPodAutoscaler) (scaleTargetRef : string)
    (containers : list corev1.Container) (container : corev1.Container)
  : list corev1.Container :=
  let envVars :=
    match corev1.Env container with
    | None => []
    | Some env => env
    end in
  let envVars := envVars ++ cpaEnvVars instance scaleTargetRef in
  let container :=
    {| corev1.ContainerName := corev1.ContainerName container;
       corev1.Image := corev1.Image container;
       corev1.Env := Some envVars |} in
  containers ++ [container].

(** [if err != nil { return result, err }] after a call returning only an
    error. *)
Definition checkErr {W} (result : reconcile.Result) (err : option error) : M W unit :=
  match err with
  | Some e => return_ result (Some e)
  | None => mret tt
  end.

(** The same after a call returning [(value, err)]. *)
Definition orReturn {W A} (result : reconcile.Result) (x : A + error) : M W A :=
  match x with
  | inl a => mret a
  | inr e => return_ result (Some e)
  end.

Section Controller.

Context {W : Type}.
Variable lib : Library.
Variable r : Collaborators W.

(** [func (r *CustomPodAutoscalerReconciler) Reconcile(context, req)] *)
Definition Reconcile (req : types.NamespacedName) : M W Empty_set :=
  (* Fetch the CustomPodAutoscaler instance *)
  got ← call (CallClientGet req) (client_Get r req);
  instance ← match got with
             | inr err =>
                 if errors.IsNotFound err then return_ reconcile.empty None
                 else return_ reconcile.empty (Some err)
             | inl instance => mret instance
             end;
  _ ← (if metav1.DeletionTimestamp (cpav1.ObjectMeta instance) is Some _
       then return_ reconcile.empty None else mret tt);
  match metav1.Annotations (cpav1.ObjectMeta instance) !! PausedReplicasAnnotation with
  | Some pausedReplicasCount =>
      let '(pausedReplicasCountInt64, err) :=
        strconv.ParseInt pausedReplicasCount 32 in
      let pausedReplicasCountInt32 := int32 pausedReplicasCountInt64 in
      _ ← checkErr reconcile.empty (NumError <$> err);
      err ← call (CallClientDelete instance) (client_Delete r instance);
      _ ← checkErr reconcile.empty err;
      let scaleTargetRef := cpav1.ScaleTargetRef (cpav1.Spec instance) in
      resourceGV ← orReturn reconcile.empty
        (ParseGroupVersion lib (autoscalingv1.APIVersion scaleTargetRef));
      let targetGR :=
        {| schema.GRGroup := schema.Group resourceGV;
           schema.Resource := autoscalingv1.Kind scaleTargetRef |} in
      let namespace := metav1.Namespace (cpav1.ObjectMeta instance) in
      got ← call
        (CallScalesGet namespace targetGR (autoscalingv1.Name scaleTargetRef))
        (scales_Get r namespace targetGR (autoscalingv1.Name scaleTargetRef));
      scaleResource ← orReturn reconcile.empty got;
      (* Set new target replicas *)
      let scaleResource :=
        {| autoscalingv1.TypeMeta := autoscalingv1.TypeMeta scaleResource;
           autoscalingv1.ObjectMeta := autoscalingv1.ObjectMeta scaleResource;
           autoscalingv1.Spec :=
             {| autoscalingv1.Replicas := pausedReplicasCountInt32 |};
           autoscalingv1.Status := autoscalingv1.Status scaleResource |} in
      updated ← call (CallScalesUpdate namespace targetGR scaleResource)
                     (scales_Update r namespace targetGR scaleResource);
      _ ← orReturn reconcile.empty updated;
      return_ reconcile.empty None
  | None =>
      let instance := applyDefaults instance in
      let name := metav1.Name (cpav1.ObjectMeta instance) in
      let namespace := metav1.Namespace (cpav1.ObjectMeta instance) in
      (* Parse scaleTargetRef *)
      scaleTargetRef ←
        match json_Marshal lib (cpav1.ScaleTargetRef (cpav1.Spec instance)) with
        | inr err => panic err
        | inl bytes => mret bytes
        end;
      let labels : gmap string string :=
        <[OwnedByLabel := name]>
          (<[managedByLabel := "custom-pod-autoscaler-operator"]> ∅) in
      (* Define a new Service Account object *)
      provisionServiceAccount ←
        deref (cpav1.ProvisionServiceAccount (cpav1.Spec instance));
      serviceAccount ←
        (if negb provisionServiceAccount return M W corev1.ServiceAccount then
           let serviceAccountName :=
             corev1.ServiceAccountName
               (corev1.TemplateSpec (cpav1.Template (cpav1.Spec instance))) in
           if negb (String.eqb serviceAccountName "") then
             mret {| corev1.ObjectMeta :=
                       objectMetaOf serviceAccountName namespace labels |}
           else
             return_ reconcile.empty
               (Some (errors.NewBadRequest
                  "ServiceAccount not provided in the CustomPodAutoscaler spec"))
         else
           mret {| corev1.ObjectMeta := objectMetaOf name namespace labels |});
      provisionServiceAccount ←
        deref (cpav1.ProvisionServiceAccount (cpav1.Spec instance));
      _ ← (if (provisionServiceAccount : bool) return M W unit then
        shouldProvision ←
          deref (cpav1.ProvisionServiceAccount (cpav1.Spec instance));
        '(result, err) ←
          call (CallReconcile instance (ObjServiceAccount serviceAccount)
                  shouldProvision true "v1/ServiceAccount")
               (k8s_Reconcile r instance (ObjServiceAccount serviceAccount)
                  shouldProvision true "v1/ServiceAccount");
        _ ← checkErr result err;
        let role :=
          {| rbacv1.ObjectMeta := objectMetaOf name namespace labels;
             rbacv1.Rules := [coreRule; appsRule] |} in
        roleRequiresMetricsServer ←
          deref (cpav1.RoleRequiresMetricsServer (cpav1.Spec instance));
        let role :=
          if (roleRequiresMetricsServer : bool) then appendRule metricsRule role
          else role in
        roleRequiresArgoRollouts ←
          deref (cpav1.RoleRequiresArgoRollouts (cpav1.Spec instance));
        let role :=
          if (roleRequiresArgoRollouts : bool) then appendRule argoRule role else role in
        shouldProvision ← deref (cpav1.ProvisionRole (cpav1.Spec instance));
        '(result, err) ←
          call (CallReconcile instance (ObjRole role) shouldProvision true "v1/Role")
               (k8s_Reconcile r instance (ObjRole role) shouldProvision true
                  "v1/Role");
        _ ← checkErr result err;
        (* Define a new Role Binding object *)
        let roleBinding :=
          {| rbacv1.BindingObjectMeta := objectMetaOf name namespace labels;
             rbacv1.Subjects :=
               [ {| rbacv1.Kind := "ServiceAccount"; rbacv1.Name := name;
                    rbacv1.Namespace := namespace |} ];
             rbacv1.BindingRoleRef :=
               {| rbacv1.RefKind := "Role"; rbacv1.RefName := name;
                  rbacv1.APIGroup := "rbac.authorization.k8s.io" |} |} in
        shouldProvision ←
          deref (cpav1.ProvisionRoleBinding (cpav1.Spec instance));
        '(result, err) ←
          call (CallReconcile instance (ObjRoleBinding roleBinding)
                  shouldProvision true "v1/RoleBinding")
               (k8s_Reconcile r instance (ObjRoleBinding roleBinding)
                  shouldProvision true "v1/RoleBinding");
        checkErr result err
      else mret tt);
      (* Set up Pod labels; a non-nil template map is written in place, so
         the instance the collaborators see next carries the two labels *)
      let templateMeta :=
        corev1.TemplateObjectMeta (cpav1.Template (cpav1.Spec instance)) in
      let podLabels : gmap string string :=
        match metav1.Labels templateMeta with
        | None => ∅
        | Some l => l
        end in
      let podLabels := <[managedByLabel := "custom-pod-autoscaler-operator"]> podLabels in
      let podLabels := <[OwnedByLabel := name]> podLabels in
      let instance :=
        match metav1.Labels templateMeta with
        | None => instance
        | Some _ => cpav1.setTemplateLabels (Some podLabels) instance
        end in
      (* Set up ObjectMeta *)
      let objectMeta :=
        {| metav1.Name :=
             if String.eqb (metav1.Name templateMeta) "" then name
             else metav1.Name templateMeta;
           metav1.Namespace :=
             if String.eqb (metav1.Namespace templateMeta) "" then namespace
             else metav1.Namespace templateMeta;
           metav1.Labels := Some podLabels;
           metav1.Annotations := metav1.Annotations templateMeta;
           metav1.DeletionTimestamp := metav1.DeletionTimestamp templateMeta |} in
      (* Set up the PodSpec template *)
      let podSpec := corev1.TemplateSpec (cpav1.Template (cpav1.Spec instance)) in
      let containers :=
        fold_left (injectEnv instance scaleTargetRef) (corev1.Containers podSpec) [] in
      let podSpec :=
        {| corev1.Containers := containers;
           corev1.ServiceAccountName :=
             metav1.Name (corev1.ObjectMeta serviceAccount) |} in
      let pod := {| corev1.PodObjectMeta := objectMeta; corev1.Spec := podSpec |} in
      shouldProvision ← deref (cpav1.ProvisionPod (cpav1.Spec instance));
      '(result, err) ←
        call (CallReconcile instance (ObjPod pod) shouldProvision false "v1/Pod")
             (k8s_Reconcile r instance (ObjPod pod) shouldProvision false "v1/Pod");
      _ ← checkErr result err;
      (* Clean up any orphaned pods *)
      err ← call (CallPodCleanup instance) (k8s_PodCleanup r instance);
      _ ← checkErr result err;
      return_ result None
  end.

End Controller.

(** ** Reading a call trace *)

Definition isClientDelete (c : Call) : bool :=
  match c with CallClientDelete _ => true | _ => false end.
Definition isScalesGet (c : Call) : bool :=
  match c with CallScalesGet _ _ _ => true | _ => false end.
Definition isScalesUpdate (c : Call) : bool :=
  match c with CallScalesUpdate _ _ _ => true | _ => false end.
Definition isReconcileServiceAccount (c : Call) : bool :=
  match c with CallReconcile _ (ObjServiceAccount _) _ _ _ => true | _ => false end.
Definition isReconcileRole (c : Call) : bool :=
  match c with CallReconcile _ (ObjRole _) _ _ _ => true | _ => false end.
Definition isReconcileRoleBinding (c : Call) : bool :=
  match c with CallReconcile _ (ObjRoleBinding _) _ _ _ => true | _ => false end.

(** Calls only the pause-override block makes. *)
Definition isPauseCall (c : Call) : bool :=
  isClientDelete c || isScalesGet c || isScalesUpdate c.

(** Calls only the provisioning block makes. *)
Definition isProvisioningCall (c : Call) : bool :=
  match c with
  | CallReconcile _ _ _ _ _ | CallPodCleanup _ => true
  | _ => false
  end.

(** The instance a call is given, when it is given one. *)
Definition callInstance (c : Call) : option cpav1.CustomPodAutoscaler :=
  match c with
  | CallClientDelete i | CallReconcile i _ _ _ _ | CallPodCleanup i => Some i
  | _ => None
  end.

(** No call of the trace satisfies [p]. *)
Definition noCall (p : Call → bool) (tr : list Call) : Prop :=
  forallb (λ c, negb (p c)) tr = true.

(** Every [q]-call of the trace has a [p]-call strictly before it. *)
Definition precedes (p q : Call → bool) (tr : list Call) : Prop :=
  ∀ i c, tr !! i = Some c → q c = true →
    ∃ j c', (j < i)%nat ∧ tr !! j = Some c' ∧ p c' = true.

(** A checker for [precedes]: [seen] tells whether a [p]-call was met. *)
Fixpoint precedesFrom (p q : Call → bool) (seen : bool) (tr : list Call) : bool :=
  match tr with
  | [] => true
  | c :: tr => implb (q c) seen && precedesFrom p q (seen || p c) tr
  end.

Definition precedesb (p q : Call → bool) (tr : list Call) : bool :=
  precedesFrom p q false tr.

(** ** Library functions and an in-memory cluster to run the controller on *)

Module apimachinery.

Fixpoint countSlash (s : string) : nat :=
  match s with
  | EmptyString => 0
  | String c rest => (if Ascii.eqb c "/" then 1 else 0) + countSlash rest
  end.

(** [gv[:i]] and [gv[i+1:]] for [i] the index of the first slash. *)
Fixpoint cutAtSlash (s : string) : string * string :=
  match s with
  | EmptyString => (EmptyString, EmptyString)
  | String c rest =>
      if Ascii.eqb c "/" then (EmptyString, rest)
      else let '(a, b) := cutAtSlash rest in (String c a, b)
  end.

(** [schema.ParseGroupVersion] *)
Definition parseGroupVersion (gv : string) : schema.GroupVersion + error :=
  if String.eqb gv "" || String.eqb gv "/" then
    inl {| schema.Group := ""; schema.Version := "" |}
  else
    match countSlash gv with
    | O => inl {| schema.Group := ""; schema.Version := gv |}
    | S O => let '(g, v) := cutAtSlash gv in
             inl {| schema.Group := g; schema.Version := v |}
    | _ => inr (OtherError ("unexpected GroupVersion string: " +:+ gv))
    end.

Definition quote (s : string) : string :=
  String "034" EmptyString +:+ s +:+ String "034" EmptyString.

(** [json.Marshal] of a [CrossVersionObjectReference] whose strings need no
    escaping; [apiVersion] is tagged omitempty. *)
Definition Marshal (ref : autoscalingv1.CrossVersionObjectReference) : string :=
  "{" +:+ quote "kind" +:+ ":" +:+ quote (autoscalingv1.Kind ref) +:+ ","
      +:+ quote "name" +:+ ":" +:+ quote (autoscalingv1.Name ref)
      +:+ (if String.eqb (autoscalingv1.APIVersion ref) "" then ""
           else "," +:+ quote "apiVersion" +:+ ":"
                    +:+ quote (autoscalingv1.APIVersion ref))
      +:+ "}".

Definition library : Library :=
  {| json_Marshal := λ ref, inl (Marshal ref);
     json_Marshal_ok := λ ref, ex_intro _ (Marshal ref) eq_refl;
     ParseGroupVersion := parseGroupVersion |}.

End apimachinery.

Module fake.

(** The declared resources by (namespace, name), the scale targets by
    (namespace, group, resource, name), and the objects handed to the
    object reconciler with provisioning on, oldest first. *)
Record Cluster := {
  autoscalers : gmap (string * string) cpav1.CustomPodAutoscaler;
  scaleTargets : gmap (string * (string * (string * string))) autoscalingv1.Scale;
  provisioned : list K8sObject;
}.

Definition notFound : error := StatusError metav1.StatusReasonNotFound "not found".

Definition scaleKey (ns : string) (gr : schema.GroupResource) (name : string) :=
  (ns, (schema.GRGroup gr, (schema.Resource gr, name))).

Definition collaborators : Collaborators Cluster :=
  {| client_Get := λ key w,
       match autoscalers w !! (types.Namespace key, types.Name key) with
       | Some i => (inl i, w)
       | None => (inr notFound, w)
       end;
     client_Delete := λ i w,
       let key := (metav1.Namespace (cpav1.ObjectMeta i),
                   metav1.Name (cpav1.ObjectMeta i)) in
       match autoscalers w !! key with
       | Some _ => (None, {| autoscalers := delete key (autoscalers w);
                             scaleTargets := scaleTargets w;
                             provisioned := provisioned w |})
       | None => (Some notFound, w)
       end;
     scales_Get := λ ns gr name w,
       match scaleTargets w !! scaleKey ns gr name with
       | Some s => (inl s, w)
       | None => (inr notFound, w)
       end;
     scales_Update := λ ns gr scale w,
       let key := scaleKey ns gr (metav1.Name (autoscalingv1.ObjectMeta scale)) in
       match scaleTargets w !! key with
       | Some _ => (inl scale, {| autoscalers := autoscalers w;
                                  scaleTargets := <[key := scale]> (scaleTargets w);
                                  provisioned := provisioned w |})
       | None => (inr notFound, w)
       end;
     k8s_Reconcile := λ i obj shouldProvision updateable kind w,
       ((reconcile.empty, None),
        if shouldProvision
        then {| autoscalers := autoscalers w; scaleTargets := scaleTargets w;
                provisioned := provisioned w ++ [obj] |}
        else w);
     k8s_PodCleanup := λ i w, (None, w) |}.

End fake.

(** Sample inputs: a declared resource [default/example] scaling the
    deployment [x], and a cluster that holds both. *)
Module sample.

Definition request : types.NamespacedName :=
  {| types.Namespace := "default"; types.Name := "example" |}.

Definition target : autoscalingv1.CrossVersionObjectReference :=
  {| autoscalingv1.Kind := "Deployment"; autoscalingv1.Name := "x";
     autoscalingv1.APIVersion := "apps/v1" |}.

Definition containers : list corev1.Container :=
  [ {| corev1.ContainerName := "autoscaler"; corev1.Image := "cpa:latest";
       corev1.Env := None |};
    {| corev1.ContainerName := "sidecar"; corev1.Image := "proxy:1";
       corev1.Env := Some [ {| corev1.Name := "interval";
                               corev1.Value := "10" |} ] |} ].

Definition template (serviceAccountName : string) : corev1.PodTemplateSpec :=
  {| corev1.TemplateObjectMeta := metav1.emptyObjectMeta;
     corev1.TemplateSpec :=
       {| corev1.Containers := containers;
          corev1.ServiceAccountName := serviceAccountName |} |}.

Definition config : list cpav1.CustomPodAutoscalerConfig :=
  [ {| cpav1.Name := "interval"; cpav1.Value := "30" |} ].

(** The resource with the given annotations, deletion timestamp, identity
    toggle and template identity name; the other toggles take [toggle]. *)
Definition autoscaler (annotations : gmap string string)
    (deletionTimestamp : option Z) (provisionServiceAccount toggle : option bool)
    (serviceAccountName : string) : cpav1.CustomPodAutoscaler :=
  {| cpav1.TypeMeta :=
       {| metav1.Kind := "CustomPodAutoscaler";
          metav1.APIVersion := "custompodautoscaler.com/v1" |};
     cpav1.ObjectMeta :=
       {| metav1.Name := "example"; metav1.Namespace := "default";
          metav1.Labels := None; metav1.Annotations := annotations;
          metav1.DeletionTimestamp := deletionTimestamp |};
     cpav1.Spec :=
       {| cpav1.Template := template serviceAccountName;
          cpav1.ScaleTargetRef := target;
          cpav1.Config := config;
          cpav1.ProvisionRole := toggle;
          cpav1.ProvisionRoleBinding := toggle;
          cpav1.ProvisionServiceAccount := provisionServiceAccount;
          cpav1.ProvisionPod := toggle;
          cpav1.RoleRequiresMetricsServer := toggle;
          cpav1.RoleRequiresArgoRollouts := toggle |} |}.

Definition paused (value : string) : gmap string string :=
  {[ PausedReplicasAnnotation := value ]}.

Definition scale : autoscalingv1.Scale :=
  {| autoscalingv1.TypeMeta :=
       {| metav1.Kind := "Scale"; metav1.APIVersion := "autoscaling/v1" |};
     autoscalingv1.ObjectMeta :=
       {| metav1.Name := "x"; metav1.Namespace := "default";
          metav1.Labels := None; metav1.Annotations := ∅;
          metav1.DeletionTimestamp := None |};
     autoscalingv1.Spec := {| autoscalingv1.Replicas := 5 |};
     autoscalingv1.Status :=
       {| autoscalingv1.StatusReplicas := 5; autoscalingv1.Selector := "app=x" |} |}.

Definition cluster (i : cpav1.CustomPodAutoscaler) : fake.Cluster :=
  {| fake.autoscalers := {[ ("default", "example") := i ]};
     fake.scaleTargets := {[ ("default", ("apps", ("Deployment", "x"))) := scale ]};
     fake.provisioned := [] |}.

(** One invocation on the cluster holding [i]. *)
Definition run (i : cpav1.CustomPodAutoscaler) : Exit * State fake.Cluster :=
  exec (Reconcile apimachinery.library fake.collaborators request) (cluster i).

End sample.
(** [wp m s Q]: running [m] from state [s] gives an outcome and a state that
    satisfy [Q]. *)
Definition wp {W A} (m : M W A) (s : State W)
    (Q : (A + Exit) * State W → Prop) : Prop :=
  Q (m s).

(** What the container loop does to one container. *)
Definition withInjectedEnv (instance : cpav1.CustomPodAutoscaler)
    (scaleTargetRef : string) (container : corev1.Container) : corev1.Container :=
  {| corev1.ContainerName := corev1.ContainerName container;
     corev1.Image := corev1.Image container;
     corev1.Env := Some (default [] (corev1.Env container)
                         ++ cpaEnvVars instance scaleTargetRef) |}.

(** The resource of the defaulting claim: every toggle written out, the four
    provisioning toggles true and the two role extensions false. *)
Definition withExplicitToggles (instance : cpav1.CustomPodAutoscaler)
  : cpav1.CustomPodAutoscaler :=
  cpav1.setRoleRequiresArgoRollouts (Some false)
    (cpav1.setRoleRequiresMetricsServer (Some false)
       (cpav1.setProvisionPod (Some true)
          (cpav1.setProvisionServiceAccount (Some true)
             (cpav1.setProvisionRoleBinding (Some true)
                (cpav1.setProvisionRole (Some true) instance))))).

(** The same collaborators over a cluster whose declared resources are read
    through [f]. *)
Definition fetching {W} (f : cpav1.CustomPodAutoscaler → cpav1.CustomPodAutoscaler)
    (r : Collaborators W) : Collaborators W :=
  {| client_Get := λ key w,
       match client_Get r key w with
       | (inl i, w') => (inl (f i), w')
       | (inr err, w') => (inr err, w')
       end;
     client_Delete := client_Delete r;
     scales_Get := scales_Get r;
     scales_Update := scales_Update r;
     k8s_Reconcile := k8s_Reconcile r;
     k8s_PodCleanup := k8s_PodCleanup r |}.

(** The variables [cpaEnvVars] yields, written out: the serialized scale
    target, the namespace, then the config pairs in declared order. *)
Definition derivedEnv (scaleTargetRef namespace : string)
    (config : list cpav1.CustomPodAutoscalerConfig) : list corev1.EnvVar :=
  [ {| corev1.Name := "scaleTargetRef"; corev1.Value := scaleTargetRef |};
    {| corev1.Name := "namespace"; corev1.Value := namespace |} ]
  ++ map (λ c, {| corev1.Name := cpav1.Name c; corev1.Value := cpav1.Value c |})
         config.

(** ** The event filters and the watches of [SetupWithManager] *)

(** An object a watch reports: the declared resource or one it owns. *)
Inductive WatchedObject :=
| Primary (cpa : cpav1.CustomPodAutoscaler)
| Owned (obj : K8sObject).

Module event.
Record CreateEvent := { CreatedObject : WatchedObject }.
Record UpdateEvent := { ObjectOld : WatchedObject; ObjectNew : WatchedObject }.
Record DeleteEvent := { DeletedObject : WatchedObject; DeleteStateUnknown : bool }.
Record GenericEvent := { GenericObject : WatchedObject }.

(** What a watch delivers: one of the four event classes. *)
Inductive Event :=
| Create (e : CreateEvent)
| Update (e : UpdateEvent)
| Delete (e : DeleteEvent)
| Generic (e : GenericEvent).
End event.

Module predicate.
(** controller-runtime's [predicate.Funcs] with all four functions set. *)
Record Funcs := {
  CreateFunc : event.CreateEvent → bool;
  DeleteFunc : event.DeleteEvent → bool;
  UpdateFunc : event.UpdateEvent → bool;
  GenericFunc : event.GenericEvent → bool;
}.

(** The [Predicate] interface of [Funcs]: each method calls its function. *)
Definition passes (p : Funcs) (ev : event.Event) : bool :=
  match ev with
  | event.Create e => CreateFunc p e
  | event.Update e => UpdateFunc p e
  | event.Delete e => DeleteFunc p e
  | event.Generic e => GenericFunc p e
  end.
End predicate.

(** [PrimaryPred] *)
Definition PrimaryPred : predicate.Funcs :=
  {| predicate.UpdateFunc := λ e, true;
     predicate.DeleteFunc := λ e, true;
     predicate.CreateFunc := λ e, true;
     predicate.GenericFunc := λ e, false |}.

(** [SecondaryPred] *)
Definition SecondaryPred : predicate.Funcs :=
  {| predicate.UpdateFunc := λ e, false;
     predicate.DeleteFunc := λ e, true;
     predicate.CreateFunc := λ e, false;
     predicate.GenericFunc := λ e, false |}.

Module builder.
(** The types [SetupWithManager] registers watches for. *)
Inductive ObjectType :=
| CustomPodAutoscaler | Pod | ServiceAccount | Role | RoleBinding.

#[global] Instance ObjectType_eq_dec : EqDecision ObjectType.
Proof. solve_decision. Defined.

(** controller-runtime's controller builder: the [For] type, the [Owns]
    types with their own predicates, and the predicates [WithEventFilter]
    adds for every watch. *)
Record Builder := {
  forInput : option ObjectType;
  ownsInput : list (ObjectType * list predicate.Funcs);
  globalPredicates : list predicate.Funcs;
}.

Definition ControllerManagedBy : Builder :=
  {| forInput := None; ownsInput := []; globalPredicates := [] |}.

Definition For (t : ObjectType) (b : Builder) : Builder :=
  {| forInput := Some t; ownsInput := ownsInput b;
     globalPredicates := globalPredicates b |}.

Definition WithEventFilter (p : predicate.Funcs) (b : Builder) : Builder :=
  {| forInput := forInput b; ownsInput := ownsInput b;
     globalPredicates := globalPredicates b ++ [p] |}.

Definition Owns (t : ObjectType) (ps : list predicate.Funcs) (b : Builder)
  : Builder :=
  {| forInput := forInput b; ownsInput := ownsInput b ++ [(t, ps)];
     globalPredicates := globalPredicates b |}.

(** Whether an event on an object of type [t] reaches the work queue of the
    built controller: some watch is on [t] and every predicate of that watch,
    the global ones first, lets the event through. *)
Definition enqueues (b : Builder) (t : ObjectType) (ev : event.Event) : bool :=
  let all ps := forallb (λ p, predicate.passes p ev) (globalPredicates b ++ ps) in
  (if forInput b is Some t' then bool_decide (t' = t) && all [] else false)
  || existsb (λ '(t', ps), bool_decide (t' = t) && all ps) (ownsInput b).
End builder.

(** [SetupWithManager], up to [Complete]. *)
Definition SetupWithManager : builder.Builder :=
  builder.Owns builder.RoleBinding [SecondaryPred]
    (builder.Owns builder.Role [SecondaryPred]
       (builder.Owns builder.ServiceAccount [SecondaryPred]
          (builder.Owns builder.Pod [SecondaryPred]
             (builder.WithEventFilter PrimaryPred
                (builder.For builder.CustomPodAutoscaler
                   builder.ControllerManagedBy))))).

(** ** More ways to read a call *)

(** [GetObjectMeta] of the object handed to the object reconciler. *)
Definition metaOf (obj : K8sObject) : metav1.ObjectMeta :=
  match obj with
  | ObjServiceAccount sa => corev1.ObjectMeta sa
  | ObjRole role => rbacv1.ObjectMeta role
  | ObjRoleBinding rb => rbacv1.BindingObjectMeta rb
  | ObjPod pod => corev1.PodObjectMeta pod
  end.

Definition isReconcilePod (c : Call) : bool :=
  match c with CallReconcile _ (ObjPod _) _ _ _ => true | _ => false end.
Definition isPodCleanup (c : Call) : bool :=
  match c with CallPodCleanup _ => true | _ => false end.

(** Collaborators that fail, leaving the world alone, on the calls [fault]
    picks, and behave as [r] on the others. *)
Definition withFaults {W} (fault : Call → option error) (r : Collaborators W)
  : Collaborators W :=
  {| client_Get := λ key w,
       match fault (CallClientGet key) with
       | Some e => (inr e, w)
       | None => client_Get r key w
       end;
     client_Delete := λ i w,
       match fault (CallClientDelete i) with
       | Some e => (Some e, w)
       | None => client_Delete r i w
       end;
     scales_Get := λ ns gr name w,
       match fault (CallScalesGet ns gr name) with
       | Some e => (inr e, w)
       | None => scales_Get r ns gr name w
       end;
     scales_Update := λ ns gr scale w,
       match fault (CallScalesUpdate ns gr scale) with
       | Some e => (inr e, w)
       | None => scales_Update r ns gr scale w
       end;
     k8s_Reconcile := λ i obj shouldProvision updateable kind w,
       match fault (CallReconcile i obj shouldProvision updateable kind) with
       | Some e => ((reconcile.empty, Some e), w)
       | None => k8s_Reconcile r i obj shouldProvision updateable kind w
       end;
     k8s_PodCleanup := λ i w,
       match fault (CallPodCleanup i) with
       | Some e => (Some e, w)
       | None => k8s_PodCleanup r i w
       end |}.

(** More sample inputs: a resource aimed at another scale target, one whose
    template carries labels and a name, and runs with injected faults. *)
Module sample2.

Definition retarget (ref : autoscalingv1.CrossVersionObjectReference)
    (i : cpav1.CustomPodAutoscaler) : cpav1.CustomPodAutoscaler :=
  let s := cpav1.Spec i in
  {| cpav1.TypeMeta := cpav1.TypeMeta i; cpav1.ObjectMeta := cpav1.ObjectMeta i;
     cpav1.Spec :=
       {| cpav1.Template := cpav1.Template s;
          cpav1.ScaleTargetRef := ref;
          cpav1.Config := cpav1.Config s;
          cpav1.ProvisionRole := cpav1.ProvisionRole s;
          cpav1.ProvisionRoleBinding := cpav1.ProvisionRoleBinding s;
          cpav1.ProvisionServiceAccount := cpav1.ProvisionServiceAccount s;
          cpav1.ProvisionPod := cpav1.ProvisionPod s;
          cpav1.RoleRequiresMetricsServer := cpav1.RoleRequiresMetricsServer s;
          cpav1.RoleRequiresArgoRollouts := cpav1.RoleRequiresArgoRollouts s |} |}.

(** The sample resource with the template metadata replaced. *)
Definition withTemplateMeta (m : metav1.ObjectMeta)
    (i : cpav1.CustomPodAutoscaler) : cpav1.CustomPodAutoscaler :=
  let s := cpav1.Spec i in
  {| cpav1.TypeMeta := cpav1.TypeMeta i; cpav1.ObjectMeta := cpav1.ObjectMeta i;
     cpav1.Spec :=
       {| cpav1.Template :=
            {| corev1.TemplateObjectMeta := m;
               corev1.TemplateSpec := corev1.TemplateSpec (cpav1.Template s) |};
          cpav1.ScaleTargetRef := cpav1.ScaleTargetRef s;
          cpav1.Config := cpav1.Config s;
          cpav1.ProvisionRole := cpav1.ProvisionRole s;
          cpav1.ProvisionRoleBinding := cpav1.ProvisionRoleBinding s;
          cpav1.ProvisionServiceAccount := cpav1.ProvisionServiceAccount s;
          cpav1.ProvisionPod := cpav1.ProvisionPod s;
          cpav1.RoleRequiresMetricsServer := cpav1.RoleRequiresMetricsServer s;
          cpav1.RoleRequiresArgoRollouts := cpav1.RoleRequiresArgoRollouts s |} |}.

Definition labelledMeta : metav1.ObjectMeta :=
  {| metav1.Name := "scaler"; metav1.Namespace := "";
     metav1.Labels := Some {[ "team" := "platform"; OwnedByLabel := "someone" ]};
     metav1.Annotations := ∅; metav1.DeletionTimestamp := None |}.

Definition unavailable : error := OtherError "service unavailable".

(** One invocation on the cluster holding [i], with faults injected. *)
Definition run (fault : Call → option error) (i : cpav1.CustomPodAutoscaler)
  : Exit * State fake.Cluster :=
  exec (Reconcile apimachinery.library (withFaults fault fake.collaborators)
          sample.request)
       (sample.cluster i).

Definition failDelete (c : Call) : option error :=
  if isClientDelete c then Some unavailable else None.
Definition failRole (c : Call) : option error :=
  if isReconcileRole c then Some unavailable else None.
Definition failCleanup (c : Call) : option error :=
  if isPodCleanup c then Some unavailable else None.

End sample2.

(** ** Sample runs of the helpers *)

Example ParseInt_3 : strconv.ParseInt "3" 32 = (3, None).
Proof. reflexivity. Qed.
Example ParseInt_neg : strconv.ParseInt "-12" 32 = (-12, None).
Proof. reflexivity. Qed.
Example ParseInt_plus : strconv.ParseInt "+7" 32 = (7, None).
Proof. reflexivity. Qed.
Example ParseInt_max : strconv.ParseInt "2147483647" 32 = (2147483647, None).
Proof. reflexivity. Qed.
Example ParseInt_min : strconv.ParseInt "-2147483648" 32 = (-2147483648, None).
Proof. reflexivity. Qed.
Example ParseInt_over :
  strconv.ParseInt "2147483648" 32
  = (2147483647, Some (strconv.rangeError "ParseInt" "2147483648")).
Proof. reflexivity. Qed.
Example ParseInt_abc :
  strconv.ParseInt "abc" 32 = (0, Some (strconv.syntaxError "ParseInt" "abc")).
Proof. reflexivity. Qed.
Example ParseInt_sign_only :
  strconv.ParseInt "-" 32 = (0, Some (strconv.syntaxError "ParseInt" "-")).
Proof. reflexivity. Qed.

(** ** Facts about the helpers *)

Lemma parseDigits_nonneg s0 maxVal s : ∀ n v,
  strconv.parseDigits s0 maxVal n s = (v, None) → 0 ≤ n → 0 ≤ v.
Proof.
  induction s as [|c rest IH]; intros n v; cbn [strconv.parseDigits].
  - intros [= <-]. done.
  - destruct (_ && _) eqn:Hdigit; [|discriminate].
    destruct (_ <=? n); [discriminate|].
    destruct (maxVal <? _); [discriminate|].
    intros Hrec Hn. apply (IH _ _ Hrec).
    apply andb_prop in Hdigit as [Hlo _]. apply Z.leb_le in Hlo. lia.
Qed.

Lemma parseDigits_range s0 maxVal s : ∀ n v e,
  strconv.parseDigits s0 maxVal n s = (v, Some e) →
  strconv.Err_ e = strconv.ErrRange → v = maxVal.
Proof.
  induction s as [|c rest IH]; intros n v e; cbn [strconv.parseDigits].
  - discriminate.
  - destruct (_ && _); [|intros [= <- <-]; discriminate].
    destruct (_ <=? n); [intros [= <- <-]; done|].
    destruct (maxVal <? _); [intros [= <- <-]; done|].
    apply IH.
Qed.

Lemma ParseUint_nonneg s bitSize v :
  strconv.ParseUint s bitSize = (v, None) → 0 ≤ v.
Proof.
  unfold strconv.ParseUint. destruct s; [discriminate|].
  intros H. by apply parseDigits_nonneg in H.
Qed.

Lemma ParseUint_range s bitSize v e :
  strconv.ParseUint s bitSize = (v, Some e) →
  strconv.Err_ e = strconv.ErrRange → v = 2 ^ bitSize - 1.
Proof.
  unfold strconv.ParseUint. destruct s; [intros [= <- <-]; discriminate|].
  apply parseDigits_range.
Qed.

(** A value [ParseInt] accepts at 32 bits is an [int32]. *)
Lemma ParseInt_32_bounds s v :
  strconv.ParseInt s 32 = (v, None) → - 2 ^ 31 ≤ v < 2 ^ 31.
Proof.
  unfold strconv.ParseInt. destruct s as [|c rest]; [discriminate|].
  set (sign := if Ascii.eqb c "+" then _ else _).
  destruct sign as [neg s'].
  destruct (strconv.ParseUint s' 32) as [un err] eqn:Hun.
  change (2 ^ (32 - 1)) with (2 ^ 31).
  assert (Hcases : err = None ∧ 0 ≤ un
                   ∨ (∃ e, err = Some e ∧ strconv.Err_ e = strconv.ErrSyntax)
                   ∨ (∃ e, err = Some e ∧ strconv.Err_ e = strconv.ErrRange
                           ∧ un = 2 ^ 32 - 1)).
  { destruct err as [e|].
    - right. destruct (strconv.Err_ e) eqn:He; [left; eauto|].
      right. exists e. split_and!; [done..|]. by eapply ParseUint_range.
    - left. split; [done|]. by eapply ParseUint_nonneg. }
  destruct Hcases as [[-> Hun0]|[(e & -> & He)|(e & -> & He & ->)]].
  - destruct neg; cbn [negb andb].
    + destruct (Z.ltb_spec (2 ^ 31) un); [discriminate|]. intros [= <-]. lia.
    + destruct (Z.leb_spec (2 ^ 31) un); [discriminate|]. intros [= <-]. lia.
  - destruct e as [f nm k]. cbn in He. subst k. discriminate.
  - destruct e as [f nm k]. cbn in He. subst k.
    destruct neg; cbn [negb andb]; discriminate.
Qed.

Lemma int32_id v : - 2 ^ 31 ≤ v < 2 ^ 31 → int32 v = v.
Proof.
  intros H. unfold int32.
  rewrite Z.mod_small; lia.
Qed.

Lemma createEnvVarsFromConfig_map configs :
  createEnvVarsFromConfig configs
  = map (λ config, {| corev1.Name := cpav1.Name config;
                      corev1.Value := cpav1.Value config |}) configs.
Proof.
  unfold createEnvVarsFromConfig.
  set (f := λ envVars config, envVars ++ [_]).
  set (g := λ config, _).
  enough (∀ acc, fold_left f configs acc = acc ++ map g configs) as H
    by apply (H []).
  induction configs as [|config configs IH]; intros acc; cbn.
  - by rewrite app_nil_r.
  - rewrite IH. subst f g. cbn. by rewrite <- app_assoc.
Qed.

Lemma injectEnv_map instance scaleTargetRef containers :
  fold_left (injectEnv instance scaleTargetRef) containers []
  = map (withInjectedEnv instance scaleTargetRef) containers.
Proof.
  enough (∀ acc, fold_left (injectEnv instance scaleTargetRef) containers acc
                 = acc ++ map (withInjectedEnv instance scaleTargetRef) containers)
    as H by apply (H []).
  induction containers as [|c containers IH]; intros acc; cbn.
  - by rewrite app_nil_r.
  - rewrite IH. unfold injectEnv at 1. rewrite <- app_assoc.
    unfold withInjectedEnv at 2. by destruct (corev1.Env c).
Qed.

Lemma applyDefaults_eq i :
  applyDefaults i =
  let s := cpav1.Spec i in
  {| cpav1.TypeMeta := cpav1.TypeMeta i; cpav1.ObjectMeta := cpav1.ObjectMeta i;
     cpav1.Spec :=
       {| cpav1.Template := cpav1.Template s;
          cpav1.ScaleTargetRef := cpav1.ScaleTargetRef s;
          cpav1.Config := cpav1.Config s;
          cpav1.ProvisionRole := Some (default true (cpav1.ProvisionRole s));
          cpav1.ProvisionRoleBinding :=
            Some (default true (cpav1.ProvisionRoleBinding s));
          cpav1.ProvisionServiceAccount :=
            Some (default true (cpav1.ProvisionServiceAccount s));
          cpav1.ProvisionPod := Some (default true (cpav1.ProvisionPod s));
          cpav1.RoleRequiresMetricsServer :=
            Some (default false (cpav1.RoleRequiresMetricsServer s));
          cpav1.RoleRequiresArgoRollouts :=
            Some (default false (cpav1.RoleRequiresArgoRollouts s)) |} |}.
Proof.
  destruct i as [tm om [t ref cfg [a|] [b|] [c|] [d|] [e|] [f|]]]; reflexivity.
Qed.

Lemma precedesFrom_sound p q tr : ∀ seen,
  precedesFrom p q seen tr = true →
  ∀ i c, tr !! i = Some c → q c = true →
    seen = true ∨ ∃ j c', (j < i)%nat ∧ tr !! j = Some c' ∧ p c' = true.
Proof.
  induction tr as [|c0 tr IH]; intros seen Hchk i c Hi Hq; [done|].
  cbn in Hchk. apply andb_prop in Hchk as [Hhere Hrest].
  destruct i as [|i]; cbn in Hi.
  - injection Hi as ->. rewrite Hq in Hhere. left. by destruct seen.
  - destruct (IH _ Hrest i c Hi Hq) as [Hseen|(j & c' & Hlt & Hj & Hp)].
    + destruct seen; [by left|]. right. exists 0%nat, c0.
      split_and!; [lia|done|done].
    + right. exists (S j), c'. split_and!; [lia|done|done].
Qed.

Lemma precedesb_sound p q tr : precedesb p q tr = true → precedes p q tr.
Proof.
  intros Hchk i c Hi Hq.
  by destruct (precedesFrom_sound p q tr false Hchk i c Hi Hq).
Qed.

Lemma applyDefaults_toggles i :
  let s := cpav1.Spec i in
  let s' := cpav1.Spec (applyDefaults i) in
  cpav1.ProvisionRole s' = Some (default true (cpav1.ProvisionRole s))
  ∧ cpav1.ProvisionRoleBinding s' = Some (default true (cpav1.ProvisionRoleBinding s))
  ∧ cpav1.ProvisionServiceAccount s'
    = Some (default true (cpav1.ProvisionServiceAccount s))
  ∧ cpav1.ProvisionPod s' = Some (default true (cpav1.ProvisionPod s))
  ∧ cpav1.RoleRequiresMetricsServer s'
    = Some (default false (cpav1.RoleRequiresMetricsServer s))
  ∧ cpav1.RoleRequiresArgoRollouts s'
    = Some (default false (cpav1.RoleRequiresArgoRollouts s)).
Proof. by rewrite applyDefaults_eq. Qed.

Lemma cpaEnvVars_derived cr scaleTargetRef :
  cpaEnvVars cr scaleTargetRef
  = derivedEnv scaleTargetRef (metav1.Namespace (cpav1.ObjectMeta cr))
      (cpav1.Config (cpav1.Spec cr)).
Proof. unfold cpaEnvVars, derivedEnv. by rewrite createEnvVarsFromConfig_map. Qed.

Lemma applyDefaults_unset i :
  cpav1.ProvisionRole (cpav1.Spec i) = None →
  cpav1.ProvisionRoleBinding (cpav1.Spec i) = None →
  cpav1.ProvisionServiceAccount (cpav1.Spec i) = None →
  cpav1.ProvisionPod (cpav1.Spec i) = None →
  cpav1.RoleRequiresMetricsServer (cpav1.Spec i) = None →
  cpav1.RoleRequiresArgoRollouts (cpav1.Spec i) = None →
  applyDefaults i = withExplicitToggles i.
Proof.
  destruct i as [tm om [t ref cfg a b c d e f]]; cbn.
  by intros -> -> -> -> -> ->.
Qed.

Lemma applyDefaults_explicit i :
  applyDefaults (withExplicitToggles i) = withExplicitToggles i.
Proof. by destruct i as [tm om [t ref cfg a b c d e f]]. Qed.

(** The in-place write to the template labels leaves the toggles alone. *)
Lemma relabelled_ProvisionPod {X} (o : option X) l i :
  cpav1.ProvisionPod
    (cpav1.Spec match o with
                | None => i
                | Some _ => cpav1.setTemplateLabels l i
                end)
  = cpav1.ProvisionPod (cpav1.Spec i).
Proof. by destruct o. Qed.

Lemma relabelled_Namespace {X} (o : option X) l i :
  metav1.Namespace
    (cpav1.ObjectMeta match o with
                      | None => i
                      | Some _ => cpav1.setTemplateLabels l i
                      end)
  = metav1.Namespace (cpav1.ObjectMeta i).
Proof. by destruct o. Qed.

Lemma relabelled_Config {X} (o : option X) l i :
  cpav1.Config
    (cpav1.Spec match o with
                | None => i
                | Some _ => cpav1.setTemplateLabels l i
                end)
  = cpav1.Config (cpav1.Spec i).
Proof. by destruct o. Qed.

Lemma relabelled_Containers {X} (o : option X) l i :
  corev1.Containers
    (corev1.TemplateSpec
       (cpav1.Template
          (cpav1.Spec match o with
                      | None => i
                      | Some _ => cpav1.setTemplateLabels l i
                      end)))
  = corev1.Containers (corev1.TemplateSpec (cpav1.Template (cpav1.Spec i))).
Proof. by destruct o. Qed.

Lemma withExplicitToggles_ObjectMeta i :
  cpav1.ObjectMeta (withExplicitToggles i) = cpav1.ObjectMeta i.
Proof. done. Qed.

Lemma run_bind_call {W A B} c (f : W → A * W) (k : A → M W B) s :
  (call c f ≫= k) s
  = let '(a, w') := f (world s) in
    k a {| world := w'; calls := calls s ++ [c] |}.
Proof. unfold mbind, M_bind, call. by destruct (f (world s)). Qed.

Lemma run_bind_ret {W A B} (a : A) (k : A → M W B) s : (mret a ≫= k) s = k a s.
Proof. done. Qed.

(** ** Rules to step through a body in the monad *)

Section Wp.

Context {W : Type}.
Implicit Types s : State W.

Lemma wp_bind {A B} (m : M W A) (k : A → M W B) s Q :
  wp m s (λ '(x, s'), match x with
                      | inl a => wp (k a) s' Q
                      | inr e => Q (inr e, s')
                      end) →
  wp (m ≫= k) s Q.
Proof. unfold wp, mbind, M_bind. by destruct (m s) as [[a|e] s']. Qed.

Lemma wp_ret {A} (a : A) s (Q : (A + Exit) * State W → Prop) :
  Q (inl a, s) → wp (mret a) s Q.
Proof. done. Qed.

Lemma wp_return {A} result err s (Q : (A + Exit) * State W → Prop) :
  Q (inr (Return result err), s) → wp (return_ result err) s Q.
Proof. done. Qed.

Lemma wp_panic {A} v s (Q : (A + Exit) * State W → Prop) :
  Q (inr (Panic v), s) → wp (panic v) s Q.
Proof. done. Qed.

Lemma wp_call {A} c (f : W → A * W) w tr (Q : (A + Exit) * State W → Prop) :
  (∀ a w', f w = (a, w') → Q (inl a, {| world := w'; calls := tr ++ [c] |})) →
  wp (call c f) {| world := w; calls := tr |} Q.
Proof. unfold wp, call. cbn. destruct (f w) as [a w']. eauto. Qed.

Lemma wp_checkErr result err s (Q : (unit + Exit) * State W → Prop) :
  match err with
  | Some e => Q (inr (Return result (Some e)), s)
  | None => Q (inl tt, s)
  end →
  wp (checkErr result err) s Q.
Proof. by destruct err. Qed.

Lemma wp_orReturn {A} result (x : A + error) s
    (Q : (A + Exit) * State W → Prop) :
  match x with
  | inl a => Q (inl a, s)
  | inr e => Q (inr (Return result (Some e)), s)
  end →
  wp (orReturn result x) s Q.
Proof. by destruct x. Qed.

Lemma wp_deref p b s (Q : (bool + Exit) * State W → Prop) :
  p = Some b → Q (inl b, s) → wp (deref p) s Q.
Proof. by intros ->. Qed.

Lemma wp_exec (m : M W Empty_set) w (P : Exit * State W → Prop) :
  wp m {| world := w; calls := [] |}
     (λ '(x, s'), match x with
                  | inl v => True
                  | inr e => P (e, s')
                  end) →
  P (exec m w).
Proof.
  unfold wp, exec. by destruct (m _) as [[[]|e] s'].
Qed.

End Wp.

(** ** Running [Reconcile] symbolically *)

Ltac run_reconcile :=
  unfold exec, Reconcile;
  unfold checkErr, orReturn, deref;
  unfold mbind, M_bind, mret, M_ret, call, return_, panic;
  cbn [world calls].

(** Split on the innermost scrutinee that blocks the computation. *)
Ltac case_step :=
  match goal with
  | |- context [match ?x with _ => _ end] =>
      lazymatch x with
      | context [match _ with _ => _ end] => fail
      | _ => destruct x eqn:?
      end
  end.

(** One step of symbolic execution on the head of the body. *)
Ltac wp_step :=
  lazymatch goal with
  | |- wp (mbind _ _) _ _ => apply wp_bind
  | |- wp (mret _) _ _ => apply wp_ret
  | |- wp (return_ _ _) _ _ => apply wp_return
  | |- wp (panic _) _ _ => apply wp_panic
  | |- wp (call _ ?f) {| world := ?w |} _ =>
      let H := fresh "Hcall" in
      apply wp_call; intros ? ? H;
      try match goal with
          | H' : f w = _ |- _ => rewrite H' in H; injection H as <- <-
          end
  | |- wp (checkErr _ _) _ _ => apply wp_checkErr
  | |- wp (orReturn _ _) _ _ => apply wp_orReturn
  | |- wp (deref _) _ _ =>
      eapply wp_deref;
      [first [apply applyDefaults_toggles
             |rewrite relabelled_ProvisionPod; apply applyDefaults_toggles]|]
  | |- wp (match ?x with _ => _ end) _ _ =>
      first [match goal with H : x = _ |- _ => rewrite H end
            |destruct x eqn:?]
  | |- match ?x with _ => _ end =>
      first [match goal with H : x = _ |- _ => rewrite H end
            |destruct x eqn:?]
  end;
  cbv beta iota zeta.

(** Symbolic execution of the whole body, with the goal's predicate on the
    outcome kept folded on the way. *)
Ltac wp_run :=
  lazymatch goal with
  | |- context [exec ?m ?w] =>
      pattern (exec m w);
      lazymatch goal with
      | |- ?P _ =>
          let Q := fresh "Q" in
          set (Q := P); apply wp_exec; unfold Reconcile;
          repeat wp_step; try exact I;
          subst Q; cbv beta; cbn [fst snd calls world app]
      end
  end.

(** Membership of a call in an explicit trace, one position at a time. *)
Ltac in_trace H :=
  repeat (apply elem_of_cons in H as [H|H]; [try discriminate H|]);
  try (by apply elem_of_nil in H).

Local Opaque insert lookup empty fold_left String.eqb strconv.ParseInt int32
  applyDefaults.

Section Claims.

Context {W : Type}.
Variable lib : Library.
Variable r : Collaborators W.
Variable req : types.NamespacedName.
Variable w : W.

Local Abbreviation out := (exec (Reconcile lib r req) w).

(** C9. A resource whose deletion timestamp is set: the invocation returns
    [reconcile.Result{}, nil] right after the fetch.  The only call made is
    the fetch and the world is the one the fetch left, whatever the
    annotations hold, so the pause-override block is not entered even when
    the pause annotation is present. *)
Theorem deleted_resource_is_left_alone instance w1 ts :
  client_Get r req w = (inl instance, w1) →
  metav1.DeletionTimestamp (cpav1.ObjectMeta instance) = Some ts →
  out = (Return reconcile.empty None,
         {| world := w1; calls := [CallClientGet req] |}).
Proof.
  intros Hget Hdel. run_reconcile. rewrite Hget. cbn. by rewrite Hdel.
Qed.

(** C2, amended. A pause annotation that [strconv.ParseInt(_, 10, 32)]
    rejects: nothing but the fetch is called (no delete of the declared
    resource, no read or update of the scale target) and the world is the
    one the fetch left; when the resource is not marked for deletion the
    invocation returns the parse error. *)
Theorem malformed_pause_annotation instance w1 value v e :
  client_Get r req w = (inl instance, w1) →
  metav1.Annotations (cpav1.ObjectMeta instance) !! PausedReplicasAnnotation
    = Some value →
  strconv.ParseInt value 32 = (v, Some e) →
  out.2 = {| world := w1; calls := [CallClientGet req] |}
  ∧ (metav1.DeletionTimestamp (cpav1.ObjectMeta instance) = None →
     out.1 = Return reconcile.empty (Some (NumError e))).
Proof.
  intros Hget Hann Hparse. run_reconcile. rewrite Hget. cbn.
  destruct (metav1.DeletionTimestamp _); cbn; [by split|].
  rewrite Hann, Hparse. cbn. by split.
Qed.

(** C1. On the pause-override path (annotation present, value accepted by
    [ParseInt]) the first call after the fetch is the delete of the declared
    resource; the read of the scale target, if reached, comes after it and
    the update, if reached, after the read.  So in the trace every scale
    read has a delete before it and every scale update a scale read (and a
    delete) before it. *)
Theorem pause_deletes_before_scaling instance w1 value n :
  client_Get r req w = (inl instance, w1) →
  metav1.DeletionTimestamp (cpav1.ObjectMeta instance) = None →
  metav1.Annotations (cpav1.ObjectMeta instance) !! PausedReplicasAnnotation
    = Some value →
  strconv.ParseInt value 32 = (n, None) →
  let tr := calls out.2 in
  (∃ rest, tr = CallClientGet req :: CallClientDelete instance :: rest
     ∧ (rest = []
        ∨ (∃ ns gr name, rest = [CallScalesGet ns gr name])
        ∨ (∃ ns gr name scale,
             rest = [CallScalesGet ns gr name; CallScalesUpdate ns gr scale])))
  ∧ precedes isClientDelete isScalesGet tr
  ∧ precedes isScalesGet isScalesUpdate tr
  ∧ precedes isClientDelete isScalesUpdate tr.
Proof.
  intros Hget Hdel Hann Hparse. run_reconcile.
  rewrite Hget. cbn. rewrite Hdel, Hann, Hparse. cbn.
  repeat (case_step; cbn);
    (split; [eexists; split; [reflexivity|]; eauto 10
            | split_and!; by apply precedesb_sound]).
Qed.

(** C10. On the pause-override path, once the delete and the read of the
    scale target have succeeded, the scale sent to the update is the one
    that was read with [Spec.Replicas] set to the parsed annotation value:
    type metadata, object metadata and status are the fetched ones, and the
    update addresses the namespace and group/resource the read used. *)
Theorem pause_update_changes_only_replicas instance w1 value n w2 gv fetched w3 :
  client_Get r req w = (inl instance, w1) →
  metav1.DeletionTimestamp (cpav1.ObjectMeta instance) = None →
  metav1.Annotations (cpav1.ObjectMeta instance) !! PausedReplicasAnnotation
    = Some value →
  strconv.ParseInt value 32 = (n, None) →
  client_Delete r instance w1 = (None, w2) →
  let ref := cpav1.ScaleTargetRef (cpav1.Spec instance) in
  let ns := metav1.Namespace (cpav1.ObjectMeta instance) in
  let gr := {| schema.GRGroup := schema.Group gv;
               schema.Resource := autoscalingv1.Kind ref |} in
  ParseGroupVersion lib (autoscalingv1.APIVersion ref) = inl gv →
  scales_Get r ns gr (autoscalingv1.Name ref) w2 = (inl fetched, w3) →
  ∃ written,
    calls out.2 = [CallClientGet req; CallClientDelete instance;
                   CallScalesGet ns gr (autoscalingv1.Name ref);
                   CallScalesUpdate ns gr written]
    ∧ autoscalingv1.Replicas (autoscalingv1.Spec written) = n
    ∧ autoscalingv1.TypeMeta written = autoscalingv1.TypeMeta fetched
    ∧ autoscalingv1.ObjectMeta written = autoscalingv1.ObjectMeta fetched
    ∧ autoscalingv1.Status written = autoscalingv1.Status fetched.
Proof.
  intros Hget Hdel Hann Hparse Hdelete ref ns gr Hgv Hscale. run_reconcile.
  rewrite Hget. cbn. rewrite Hdel, Hann, Hparse. cbn.
  rewrite Hdelete. cbn. fold ref. rewrite Hgv. cbn. fold ns gr.
  rewrite Hscale. cbn.
  rewrite (int32_id n) by (by eapply ParseInt_32_bounds).
  eexists. split; [by destruct (scales_Update _ _ _ _ _) as [[?|?] ?]|].
  done.
Qed.

(*CLAIMS-END*)

(** C3. On the provisioning path with [provisionServiceAccount] explicitly
    false and no [ServiceAccountName] in the template pod spec, the
    invocation returns the bad-request validation error; the fetch is the
    only call made, so the object reconciler is never called and the
    cluster is as the fetch left it. *)
Theorem missing_service_account_is_rejected instance w1 :
  client_Get r req w = (inl instance, w1) →
  metav1.DeletionTimestamp (cpav1.ObjectMeta instance) = None →
  metav1.Annotations (cpav1.ObjectMeta instance) !! PausedReplicasAnnotation
    = None →
  cpav1.ProvisionServiceAccount (cpav1.Spec instance) = Some false →
  corev1.ServiceAccountName
    (corev1.TemplateSpec (cpav1.Template (cpav1.Spec instance))) = "" →
  out = (Return reconcile.empty
           (Some (errors.NewBadRequest
              "ServiceAccount not provided in the CustomPodAutoscaler spec")),
         {| world := w1; calls := [CallClientGet req] |}).
Proof.
  intros Hget Hdel Hann Hpsa Hname. run_reconcile.
  rewrite Hget. cbn. rewrite Hdel, Hann.
  destruct (json_Marshal_ok lib
              (cpav1.ScaleTargetRef (cpav1.Spec (applyDefaults instance))))
    as [bytes ->].
  rewrite applyDefaults_eq. cbn. rewrite Hpsa, Hname. cbn.
  by rewrite String.eqb_refl.
Qed.

(*CLAIMS-END*)

(** C5. In every invocation each submission of the role to the object
    reconciler has a submission of the service account before it, and each
    submission of the role binding has one of the role before it; an
    invocation on the provisioning path with identity provisioning on that
    returns without error made exactly these calls after the fetch, in this
    order: service account, role, role binding, pod, cleanup.  With
    [provisionServiceAccount] false neither the role nor the role binding is
    ever submitted. *)
Theorem identity_then_role_then_binding :
  let tr := calls out.2 in
  precedes isReconcileServiceAccount isReconcileRole tr
  ∧ precedes isReconcileRole isReconcileRoleBinding tr
  ∧ (∀ instance w1,
       client_Get r req w = (inl instance, w1) →
       metav1.DeletionTimestamp (cpav1.ObjectMeta instance) = None →
       metav1.Annotations (cpav1.ObjectMeta instance) !! PausedReplicasAnnotation
         = None →
       default true (cpav1.ProvisionServiceAccount (cpav1.Spec instance)) = true →
       ∀ result, out.1 = Return result None →
       ∃ i sa role rb i' pod p1 p2 p3 p4,
         tr = [CallClientGet req;
               CallReconcile i (ObjServiceAccount sa) p1 true "v1/ServiceAccount";
               CallReconcile i (ObjRole role) p2 true "v1/Role";
               CallReconcile i (ObjRoleBinding rb) p3 true "v1/RoleBinding";
               CallReconcile i' (ObjPod pod) p4 false "v1/Pod";
               CallPodCleanup i'])
  ∧ (∀ instance w1,
       client_Get r req w = (inl instance, w1) →
       cpav1.ProvisionServiceAccount (cpav1.Spec instance) = Some false →
       noCall isReconcileRole tr ∧ noCall isReconcileRoleBinding tr).
Proof.
  wp_run.
  all: split_and!; [by apply precedesb_sound..| |].
  all: intros ? ? Hget; rewrite Hget in Hcall; simplify_eq; intros.
  all: try congruence.
  all: try (by split).
  all: try match goal with
           | H : cpav1.ProvisionServiceAccount _ = Some false |- _ =>
               by rewrite H in *
           end.
  all: simplify_eq.
  all: by eauto 15.
Qed.

(** C6. The role handed to the object reconciler carries the two baseline
    rule blocks (core resources, apps resources with their scale
    subresources), then the metrics-API block exactly when
    [roleRequiresMetricsServer] is true, then the Argo rollouts block exactly
    when [roleRequiresArgoRollouts] is true; an unset toggle counts as
    false.  With both false the rule set is the baseline. *)
Theorem role_rules_follow_toggles instance w1 :
  client_Get r req w = (inl instance, w1) →
  ∀ i role p u k,
    CallReconcile i (ObjRole role) p u k ∈ calls out.2 →
    let metrics :=
      default false (cpav1.RoleRequiresMetricsServer (cpav1.Spec instance)) in
    let argo :=
      default false (cpav1.RoleRequiresArgoRollouts (cpav1.Spec instance)) in
    rbacv1.Rules role
    = [coreRule; appsRule]
      ++ (if metrics then [metricsRule] else [])
      ++ (if argo then [argoRule] else [])
    ∧ (metrics = false → argo = false → rbacv1.Rules role = [coreRule; appsRule]).
Proof.
  intros Hget. wp_run.
  all: intros i role p u k Hin; in_trace Hin.
  all: injection Hin as -> -> -> -> ->.
  all: by destruct (default false (cpav1.RoleRequiresMetricsServer _)),
            (default false (cpav1.RoleRequiresArgoRollouts _)).
Qed.

(** C4. On the provisioning path the pod handed to the object reconciler
    has one container per container of the template pod spec, in the same
    order and otherwise unchanged, whose environment is the template
    container's environment (empty when unset) followed by [scaleTargetRef]
    holding the serialized scale target reference, [namespace] holding the
    resource's namespace, and one variable per config pair, name and value
    verbatim, in declared order.  Nothing is deduplicated, and the first two
    variables are there whatever the config holds.  An invocation that
    returns without error did submit that pod. *)
Theorem environment_is_injected instance w1 bytes :
  client_Get r req w = (inl instance, w1) →
  metav1.DeletionTimestamp (cpav1.ObjectMeta instance) = None →
  metav1.Annotations (cpav1.ObjectMeta instance) !! PausedReplicasAnnotation
    = None →
  json_Marshal lib (cpav1.ScaleTargetRef (cpav1.Spec instance)) = inl bytes →
  let derived :=
    [ {| corev1.Name := "scaleTargetRef"; corev1.Value := bytes |};
      {| corev1.Name := "namespace";
         corev1.Value := metav1.Namespace (cpav1.ObjectMeta instance) |} ]
    ++ map (λ c, {| corev1.Name := cpav1.Name c; corev1.Value := cpav1.Value c |})
           (cpav1.Config (cpav1.Spec instance)) in
  (∀ i pod p u k,
     CallReconcile i (ObjPod pod) p u k ∈ calls out.2 →
     corev1.Containers (corev1.Spec pod)
     = map (λ c, {| corev1.ContainerName := corev1.ContainerName c;
                    corev1.Image := corev1.Image c;
                    corev1.Env := Some (default [] (corev1.Env c) ++ derived) |})
           (corev1.Containers
              (corev1.TemplateSpec (cpav1.Template (cpav1.Spec instance)))))
  ∧ (∀ result, out.1 = Return result None →
     ∃ i pod p, CallReconcile i (ObjPod pod) p false "v1/Pod" ∈ calls out.2).
Proof.
  intros Hget Hdel Hann Hjson.
  assert (json_Marshal lib
            (cpav1.ScaleTargetRef (cpav1.Spec (applyDefaults instance)))
          = inl bytes) as Hjson' by by rewrite applyDefaults_eq.
  assert (∀ {X} (o : option X) l,
            map (withInjectedEnv
                   match o with
                   | None => applyDefaults instance
                   | Some _ => cpav1.setTemplateLabels l (applyDefaults instance)
                   end bytes)
                (corev1.Containers
                   (corev1.TemplateSpec
                      (cpav1.Template (cpav1.Spec (applyDefaults instance)))))
            = map (λ c, {| corev1.ContainerName := corev1.ContainerName c;
                           corev1.Image := corev1.Image c;
                           corev1.Env :=
                             Some (default [] (corev1.Env c)
                                   ++ derivedEnv bytes
                                        (metav1.Namespace (cpav1.ObjectMeta instance))
                                        (cpav1.Config (cpav1.Spec instance))) |})
                  (corev1.Containers
                     (corev1.TemplateSpec (cpav1.Template (cpav1.Spec instance)))))
    as Hmap.
  { intros X o l. unfold withInjectedEnv.
    rewrite cpaEnvVars_derived, relabelled_Namespace, relabelled_Config.
    by rewrite applyDefaults_eq. }
  wp_run.
  all: split; [intros i pod p u k Hin; in_trace Hin|intros result Hret].
  all: try discriminate Hret.
  all: try (injection Hin as -> -> -> -> ->; cbn [corev1.Spec corev1.Containers];
            rewrite relabelled_Containers, injectEnv_map; apply Hmap).
  all: do 3 eexists;
    solve [repeat first [apply list_elem_of_here|apply list_elem_of_further]].
Qed.

(** C7. A resource with all six toggles unset, on the provisioning path:
    the invocation ends as the one on the same cluster where that resource
    has [provisionServiceAccount], [provisionRole], [provisionRoleBinding]
    and [provisionPod] explicitly true and [roleRequiresMetricsServer] and
    [roleRequiresArgoRollouts] explicitly false: same result and error, same
    calls with the same arguments in the same order, same final cluster.
    The defaults are in place before any toggle is read: no invocation
    panics, in particular not on a nil toggle. *)
Theorem unset_toggles_behave_as_defaults instance w1 :
  client_Get r req w = (inl instance, w1) →
  metav1.DeletionTimestamp (cpav1.ObjectMeta instance) = None →
  metav1.Annotations (cpav1.ObjectMeta instance) !! PausedReplicasAnnotation
    = None →
  cpav1.ProvisionServiceAccount (cpav1.Spec instance) = None →
  cpav1.ProvisionRole (cpav1.Spec instance) = None →
  cpav1.ProvisionRoleBinding (cpav1.Spec instance) = None →
  cpav1.ProvisionPod (cpav1.Spec instance) = None →
  cpav1.RoleRequiresMetricsServer (cpav1.Spec instance) = None →
  cpav1.RoleRequiresArgoRollouts (cpav1.Spec instance) = None →
  out = exec (Reconcile lib (fetching withExplicitToggles r) req) w
  ∧ (∀ v, out.1 ≠ Panic v).
Proof.
  intros Hget Hdel Hann Hsa Hrole Hrb Hpod Hms Har. split.
  - unfold exec, Reconcile.
    rewrite !run_bind_call. cbn [world calls fetching client_Get].
    rewrite Hget. cbv beta iota. rewrite !run_bind_ret.
    rewrite withExplicitToggles_ObjectMeta, Hdel, Hann.
    rewrite !run_bind_ret. cbv zeta.
    by rewrite applyDefaults_explicit, (applyDefaults_unset instance).
  - wp_run; try done.
    all: destruct (json_Marshal_ok lib
                     (cpav1.ScaleTargetRef (cpav1.Spec (applyDefaults instance))));
      congruence.
Qed.

(** C8, amended. No invocation makes both a pause-override call (delete,
    scale read, scale update) and a provisioning call (object reconciler,
    cleanup).  When the fetch fails or the resource is marked for deletion
    neither block runs: the fetch is the only call.  For a fetched resource
    not marked for deletion: with the pause annotation present the
    pause-override block runs (it returns the parse error or deletes the
    resource as its first call), nothing is handed to the object reconciler
    or the cleanup, and every call that takes the resource takes it as
    fetched, without defaults; with the annotation absent the provisioning
    block runs (it returns the validation error or calls the object
    reconciler first) and no delete, scale read or scale update is made. *)
Theorem one_path_per_invocation :
  let tr := calls out.2 in
  (noCall isPauseCall tr ∨ noCall isProvisioningCall tr)
  ∧ (∀ err w1, client_Get r req w = (inr err, w1) → tr = [CallClientGet req])
  ∧ (∀ instance w1 ts,
       client_Get r req w = (inl instance, w1) →
       metav1.DeletionTimestamp (cpav1.ObjectMeta instance) = Some ts →
       tr = [CallClientGet req])
  ∧ (∀ instance w1 value,
       client_Get r req w = (inl instance, w1) →
       metav1.DeletionTimestamp (cpav1.ObjectMeta instance) = None →
       metav1.Annotations (cpav1.ObjectMeta instance) !! PausedReplicasAnnotation
         = Some value →
       noCall isProvisioningCall tr
       ∧ (∀ c i, c ∈ tr → callInstance c = Some i → i = instance)
       ∧ ((∃ v e, strconv.ParseInt value 32 = (v, Some e)
                  ∧ out.1 = Return reconcile.empty (Some (NumError e)))
          ∨ (∃ rest, tr = CallClientGet req :: CallClientDelete instance :: rest)))
  ∧ (∀ instance w1,
       client_Get r req w = (inl instance, w1) →
       metav1.DeletionTimestamp (cpav1.ObjectMeta instance) = None →
       metav1.Annotations (cpav1.ObjectMeta instance) !! PausedReplicasAnnotation
         = None →
       noCall isPauseCall tr
       ∧ (out.1 = Return reconcile.empty
                    (Some (errors.NewBadRequest
                       "ServiceAccount not provided in the CustomPodAutoscaler spec"))
          ∨ (∃ c rest, tr = CallClientGet req :: c :: rest
                       ∧ isProvisioningCall c = true))).
Proof.
  wp_run.
  all: try (destruct (json_Marshal_ok lib
              (cpav1.ScaleTargetRef (cpav1.Spec (applyDefaults c)))); congruence).
  all: split_and!; [first [by left|by right]|..].
  all: intros; rewrite Hcall in *; simplify_eq; try congruence; try done.
  all: split_and!; try done.
  all: try (intros c' i' Hin Hsome; in_trace Hin; by simplify_eq/=).
  all: try (by right; eauto).
  all: try (by left; eauto).
  left. destruct o as [e0|]; simplify_eq/=. eauto.
Qed.

End Claims.

(** ** The claims on the sample cluster *)

(** C9 on a resource that is marked for deletion and also carries the pause
    annotation. *)
Lemma deleted_resource_is_left_alone_witness :
  let i := sample.autoscaler (sample.paused "3") (Some 1700000000) None None "" in
  sample.run i
  = (Return reconcile.empty None,
     {| world := sample.cluster i; calls := [CallClientGet sample.request] |}).
Proof.
  intros i.
  apply (deleted_resource_is_left_alone apimachinery.library fake.collaborators
           sample.request (sample.cluster i) i (sample.cluster i) 1700000000);
    vm_compute; reflexivity.
Defined.

(** C2 as stated fails: the annotation holds "abc", which [ParseInt] rejects,
    yet the invocation returns no error, because the resource is marked for
    deletion and the deletion check comes first. *)
Lemma malformed_pause_on_deleted_resource_succeeds :
  let i := sample.autoscaler (sample.paused "abc") (Some 1700000000) None None "" in
  metav1.Annotations (cpav1.ObjectMeta i) !! PausedReplicasAnnotation = Some "abc"
  ∧ strconv.ParseInt "abc" 32 = (0, Some (strconv.syntaxError "ParseInt" "abc"))
  ∧ (sample.run i).1 = Return reconcile.empty None.
Proof. vm_compute. done. Qed.

(** C2, amended, on a live resource annotated "abc". *)
Lemma malformed_pause_annotation_witness :
  let i := sample.autoscaler (sample.paused "abc") None None None "" in
  (sample.run i).2
  = {| world := sample.cluster i; calls := [CallClientGet sample.request] |}
  ∧ (sample.run i).1
    = Return reconcile.empty
        (Some (NumError (strconv.syntaxError "ParseInt" "abc"))).
Proof.
  intros i.
  destruct (malformed_pause_annotation apimachinery.library fake.collaborators
              sample.request (sample.cluster i) i (sample.cluster i) "abc" 0
              (strconv.syntaxError "ParseInt" "abc"))
    as [Hstate Hexit]; [vm_compute; reflexivity..|].
  split; [exact Hstate|apply Hexit; reflexivity].
Defined.

(** C1 on a live resource annotated "3". *)
Lemma pause_deletes_before_scaling_witness :
  let i := sample.autoscaler (sample.paused "3") None None None "" in
  let tr := calls (sample.run i).2 in
  (∃ rest, tr = CallClientGet sample.request :: CallClientDelete i :: rest
     ∧ (rest = []
        ∨ (∃ ns gr name, rest = [CallScalesGet ns gr name])
        ∨ (∃ ns gr name scale,
             rest = [CallScalesGet ns gr name; CallScalesUpdate ns gr scale])))
  ∧ precedes isClientDelete isScalesGet tr
  ∧ precedes isScalesGet isScalesUpdate tr
  ∧ precedes isClientDelete isScalesUpdate tr.
Proof.
  intros i.
  apply (pause_deletes_before_scaling apimachinery.library fake.collaborators
           sample.request (sample.cluster i) i (sample.cluster i) "3" 3);
    vm_compute; reflexivity.
Defined.

(** C10 on the same resource: the scale read has 5 replicas, the one written
    has 3 and is otherwise the same. *)
Lemma pause_update_changes_only_replicas_witness :
  let i := sample.autoscaler (sample.paused "3") None None None "" in
  let gr := {| schema.GRGroup := "apps"; schema.Resource := "Deployment" |} in
  ∃ written,
    calls (sample.run i).2
    = [CallClientGet sample.request; CallClientDelete i;
       CallScalesGet "default" gr "x"; CallScalesUpdate "default" gr written]
    ∧ autoscalingv1.Replicas (autoscalingv1.Spec written) = 3
    ∧ autoscalingv1.TypeMeta written = autoscalingv1.TypeMeta sample.scale
    ∧ autoscalingv1.ObjectMeta written = autoscalingv1.ObjectMeta sample.scale
    ∧ autoscalingv1.Status written = autoscalingv1.Status sample.scale.
Proof.
  intros i gr.
  eapply (pause_update_changes_only_replicas apimachinery.library
            fake.collaborators sample.request (sample.cluster i) i
            (sample.cluster i) "3" 3 _
            {| schema.Group := "apps"; schema.Version := "v1" |} sample.scale);
    vm_compute; reflexivity.
Defined.

(** C3 on a resource with identity provisioning off and no identity named. *)
Lemma missing_service_account_is_rejected_witness :
  let i := sample.autoscaler ∅ None (Some false) None "" in
  sample.run i
  = (Return reconcile.empty
       (Some (errors.NewBadRequest
          "ServiceAccount not provided in the CustomPodAutoscaler spec")),
     {| world := sample.cluster i; calls := [CallClientGet sample.request] |}).
Proof.
  intros i.
  apply (missing_service_account_is_rejected apimachinery.library
           fake.collaborators sample.request (sample.cluster i) i
           (sample.cluster i));
    vm_compute; reflexivity.
Defined.

(** C5 on a resource with every toggle unset, and on one with identity
    provisioning off that names an identity of its own. *)
Lemma identity_then_role_then_binding_witness :
  let i := sample.autoscaler ∅ None None None "" in
  let j := sample.autoscaler ∅ None (Some false) None "external" in
  let tr := calls (sample.run i).2 in
  precedes isReconcileServiceAccount isReconcileRole tr
  ∧ precedes isReconcileRole isReconcileRoleBinding tr
  ∧ (∃ i1 sa role rb i2 pod p1 p2 p3 p4,
       tr = [CallClientGet sample.request;
             CallReconcile i1 (ObjServiceAccount sa) p1 true "v1/ServiceAccount";
             CallReconcile i1 (ObjRole role) p2 true "v1/Role";
             CallReconcile i1 (ObjRoleBinding rb) p3 true "v1/RoleBinding";
             CallReconcile i2 (ObjPod pod) p4 false "v1/Pod";
             CallPodCleanup i2])
  ∧ noCall isReconcileRole (calls (sample.run j).2)
  ∧ noCall isReconcileRoleBinding (calls (sample.run j).2).
Proof.
  intros i j tr.
  destruct (identity_then_role_then_binding apimachinery.library
              fake.collaborators sample.request (sample.cluster i))
    as (Hrole & Hbinding & Hall & _).
  destruct (identity_then_role_then_binding apimachinery.library
              fake.collaborators sample.request (sample.cluster j))
    as (_ & _ & _ & Hoff).
  split; [exact Hrole|]. split; [exact Hbinding|]. split.
  - apply (Hall i (sample.cluster i)) with (result := reconcile.empty);
      vm_compute; reflexivity.
  - apply (Hoff j (sample.cluster j)); vm_compute; reflexivity.
Defined.

(** C6 on a resource with both role extensions on. *)
Lemma role_rules_follow_toggles_witness :
  let i := sample.autoscaler ∅ None None (Some true) "" in
  ∃ i1 role p u k,
    CallReconcile i1 (ObjRole role) p u k ∈ calls (sample.run i).2
    ∧ rbacv1.Rules role = [coreRule; appsRule; metricsRule; argoRule].
Proof.
  intros i.
  assert (∃ i1 role p u k,
            CallReconcile i1 (ObjRole role) p u k ∈ calls (sample.run i).2)
    as (i1 & role & p & u & k & Hin).
  { vm_compute. do 5 eexists.
    apply list_elem_of_further, list_elem_of_further, list_elem_of_here. }
  exists i1, role, p, u, k. split; [exact Hin|].
  refine (proj1 (role_rules_follow_toggles apimachinery.library
                   fake.collaborators sample.request (sample.cluster i) i
                   (sample.cluster i) _ i1 role p u k Hin)).
  vm_compute; reflexivity.
Defined.

(** C4 on the resource of the specification's example: scale target
    Deployment [x] of apps/v1, config [interval=30].  The first template
    container has no environment, the second has one variable. *)
Lemma environment_is_injected_witness :
  let i := sample.autoscaler ∅ None None None "" in
  let derived :=
    [ {| corev1.Name := "scaleTargetRef";
         corev1.Value := apimachinery.Marshal sample.target |};
      {| corev1.Name := "namespace"; corev1.Value := "default" |};
      {| corev1.Name := "interval"; corev1.Value := "30" |} ] in
  ∃ i1 pod p,
    CallReconcile i1 (ObjPod pod) p false "v1/Pod" ∈ calls (sample.run i).2
    ∧ corev1.Containers (corev1.Spec pod)
      = [ {| corev1.ContainerName := "autoscaler"; corev1.Image := "cpa:latest";
             corev1.Env := Some derived |};
          {| corev1.ContainerName := "sidecar"; corev1.Image := "proxy:1";
             corev1.Env :=
               Some ({| corev1.Name := "interval"; corev1.Value := "10" |}
                     :: derived) |} ].
Proof.
  intros i derived.
  destruct (environment_is_injected apimachinery.library fake.collaborators
              sample.request (sample.cluster i) i (sample.cluster i)
              (apimachinery.Marshal sample.target))
    as [Hall Hsubmitted]; [vm_compute; reflexivity..|].
  destruct (Hsubmitted reconcile.empty) as (i1 & pod & p & Hin);
    [vm_compute; reflexivity|].
  exists i1, pod, p. split; [exact Hin|].
  rewrite (Hall _ _ _ _ _ Hin). reflexivity.
Defined.

(** C7 on a resource with every toggle unset. *)
Lemma unset_toggles_behave_as_defaults_witness :
  let i := sample.autoscaler ∅ None None None "" in
  sample.run i
  = exec (Reconcile apimachinery.library
            (fetching withExplicitToggles fake.collaborators) sample.request)
         (sample.cluster i)
  ∧ (∀ v, (sample.run i).1 ≠ Panic v).
Proof.
  intros i.
  apply (unset_toggles_behave_as_defaults apimachinery.library
           fake.collaborators sample.request (sample.cluster i) i
           (sample.cluster i));
    vm_compute; reflexivity.
Defined.

(** C8 as stated fails: the annotation is present and well formed, the
    resource is marked for deletion, and neither block runs: the fetch is the
    only call, so nothing is deleted, scaled or provisioned. *)
Lemma paused_and_deleted_resource_runs_neither_path :
  let i := sample.autoscaler (sample.paused "3") (Some 1700000000) None None "" in
  metav1.Annotations (cpav1.ObjectMeta i) !! PausedReplicasAnnotation = Some "3"
  ∧ strconv.ParseInt "3" 32 = (3, None)
  ∧ calls (sample.run i).2 = [CallClientGet sample.request]
  ∧ noCall isPauseCall (calls (sample.run i).2)
  ∧ noCall isProvisioningCall (calls (sample.run i).2).
Proof. vm_compute. done. Qed.

(** C8, amended, on a paused resource and on an unpaused one. *)
Lemma one_path_per_invocation_witness :
  let i := sample.autoscaler (sample.paused "3") None None None "" in
  let j := sample.autoscaler ∅ None None None "" in
  (noCall isProvisioningCall (calls (sample.run i).2)
   ∧ ∃ rest, calls (sample.run i).2
             = CallClientGet sample.request :: CallClientDelete i :: rest)
  ∧ (noCall isPauseCall (calls (sample.run j).2)
     ∧ ∃ c rest, calls (sample.run j).2 = CallClientGet sample.request :: c :: rest
                 ∧ isProvisioningCall c = true).
Proof.
  intros i j.
  destruct (one_path_per_invocation apimachinery.library fake.collaborators
              sample.request (sample.cluster i))
    as (_ & _ & _ & Hpaused & _).
  destruct (one_path_per_invocation apimachinery.library fake.collaborators
              sample.request (sample.cluster j))
    as (_ & _ & _ & _ & Hnormal).
  destruct (Hpaused i (sample.cluster i) "3")
    as (Hnone & _ & [(v & e & Hparse & _)|Hdelete]); [vm_compute; reflexivity..| |].
  { vm_compute in Hparse. discriminate Hparse. }
  destruct (Hnormal j (sample.cluster j))
    as (Hnone' & [Hbad|Hfirst]); [vm_compute; reflexivity..| |].
  { vm_compute in Hbad. discriminate Hbad. }
  split; [split; [exact Hnone|exact Hdelete]|split; [exact Hnone'|exact Hfirst]].
Defined.


(** ** Further properties of [Reconcile] and of the watches *)

Lemma standard_labels_lookup (l : gmap string string) name :
  let m := <[OwnedByLabel := name]>
             (<[managedByLabel := "custom-pod-autoscaler-operator"]> l) in
  m !! managedByLabel = Some "custom-pod-autoscaler-operator"
  ∧ m !! OwnedByLabel = Some name
  ∧ ∀ key, key ≠ managedByLabel → key ≠ OwnedByLabel → m !! key = l !! key.
Proof.
  cbn. split_and!.
  - rewrite lookup_insert_ne by done. apply lookup_insert_eq.
  - apply lookup_insert_eq.
  - intros key Hm Ho. by rewrite !lookup_insert_ne.
Qed.

Lemma applyDefaults_ObjectMeta i :
  cpav1.ObjectMeta (applyDefaults i) = cpav1.ObjectMeta i.
Proof. by rewrite applyDefaults_eq. Qed.

Lemma applyDefaults_Template i :
  cpav1.Template (cpav1.Spec (applyDefaults i)) = cpav1.Template (cpav1.Spec i).
Proof. by rewrite applyDefaults_eq. Qed.

(** A step that splits on the toggle under a negation, not on the negation,
    so that no branch is visited with a test and its negation both taken. *)
Ltac wp_step_toggle :=
  lazymatch goal with
  | |- wp (match negb ?b with _ => _ end) _ _ =>
      first [match goal with H : b = _ |- _ => rewrite H end
            |destruct b eqn:?];
      cbn [negb]; cbv beta iota
  | _ => wp_step
  end.

Ltac wp_explore :=
  lazymatch goal with
  | |- context [exec ?m ?w] =>
      pattern (exec m w);
      lazymatch goal with
      | |- ?P _ =>
          let Q := fresh "Q" in
          set (Q := P); apply wp_exec; unfold Reconcile;
          repeat wp_step_toggle; try exact I;
          subst Q; cbv beta; cbn [fst snd calls world app]
      end
  end.

Section Extras.

Context {W : Type}.
Variable lib : Library.
Variable r : Collaborators W.
Variable req : types.NamespacedName.
Variable w : W.

Local Abbreviation out := (exec (Reconcile lib r req) w).


(** X2. On the pause-override path a failed delete of the declared resource
    is returned as the error of the invocation, and the scale target is
    neither read nor updated. *)
Theorem pause_stops_when_delete_fails instance w1 value n e w2 :
  client_Get r req w = (inl instance, w1) →
  metav1.DeletionTimestamp (cpav1.ObjectMeta instance) = None →
  metav1.Annotations (cpav1.ObjectMeta instance) !! PausedReplicasAnnotation
    = Some value →
  strconv.ParseInt value 32 = (n, None) →
  client_Delete r instance w1 = (Some e, w2) →
  out = (Return reconcile.empty (Some e),
         {| world := w2;
            calls := [CallClientGet req; CallClientDelete instance] |}).
Proof.
  intros Hget Hdel Hann Hparse Hdelete. run_reconcile.
  rewrite Hget. cbn. rewrite Hdel, Hann, Hparse. cbn. by rewrite Hdelete.
Qed.

(** X3. On the pause-override path the scale target's apiVersion is parsed
    only after the declared resource has been deleted: when
    [ParseGroupVersion] rejects it the invocation returns that error with the
    resource already deleted and the scale target untouched. *)
Theorem pause_deletes_before_parsing_api_version instance w1 value n w2 e :
  client_Get r req w = (inl instance, w1) →
  metav1.DeletionTimestamp (cpav1.ObjectMeta instance) = None →
  metav1.Annotations (cpav1.ObjectMeta instance) !! PausedReplicasAnnotation
    = Some value →
  strconv.ParseInt value 32 = (n, None) →
  client_Delete r instance w1 = (None, w2) →
  ParseGroupVersion lib
    (autoscalingv1.APIVersion (cpav1.ScaleTargetRef (cpav1.Spec instance)))
    = inr e →
  out = (Return reconcile.empty (Some e),
         {| world := w2;
            calls := [CallClientGet req; CallClientDelete instance] |}).
Proof.
  intros Hget Hdel Hann Hparse Hdelete Hgv. run_reconcile.
  rewrite Hget. cbn. rewrite Hdel, Hann, Hparse. cbn. rewrite Hdelete. cbn.
  by rewrite Hgv.
Qed.

(** X4. On the pause-override path the scale target is looked up in the
    namespace of the declared resource, under the group of its apiVersion,
    with its Kind as the resource and its name; when that read fails the
    error is returned and no update is attempted. *)
Theorem pause_stops_when_scale_read_fails instance w1 value n w2 gv e w3 :
  client_Get r req w = (inl instance, w1) →
  metav1.DeletionTimestamp (cpav1.ObjectMeta instance) = None →
  metav1.Annotations (cpav1.ObjectMeta instance) !! PausedReplicasAnnotation
    = Some value →
  strconv.ParseInt value 32 = (n, None) →
  client_Delete r instance w1 = (None, w2) →
  let ref := cpav1.ScaleTargetRef (cpav1.Spec instance) in
  let ns := metav1.Namespace (cpav1.ObjectMeta instance) in
  let gr := {| schema.GRGroup := schema.Group gv;
               schema.Resource := autoscalingv1.Kind ref |} in
  ParseGroupVersion lib (autoscalingv1.APIVersion ref) = inl gv →
  scales_Get r ns gr (autoscalingv1.Name ref) w2 = (inr e, w3) →
  out = (Return reconcile.empty (Some e),
         {| world := w3;
            calls := [CallClientGet req; CallClientDelete instance;
                      CallScalesGet ns gr (autoscalingv1.Name ref)] |}).
Proof.
  intros Hget Hdel Hann Hparse Hdelete ref ns gr Hgv Hscale. run_reconcile.
  rewrite Hget. cbn. rewrite Hdel, Hann, Hparse. cbn.
  rewrite Hdelete. cbn. fold ref. rewrite Hgv. cbn. fold ns gr.
  by rewrite Hscale.
Qed.

(** X5. A pause-override run that reaches the update ends with the update's
    outcome: success when the update succeeds, its error otherwise; the
    final cluster is the one the update left and the result is the empty
    one (no requeue is asked for). *)
Theorem pause_ends_with_the_update_outcome
    instance w1 value n w2 gv fetched w3 updated w4 :
  client_Get r req w = (inl instance, w1) →
  metav1.DeletionTimestamp (cpav1.ObjectMeta instance) = None →
  metav1.Annotations (cpav1.ObjectMeta instance) !! PausedReplicasAnnotation
    = Some value →
  strconv.ParseInt value 32 = (n, None) →
  client_Delete r instance w1 = (None, w2) →
  let ref := cpav1.ScaleTargetRef (cpav1.Spec instance) in
  let ns := metav1.Namespace (cpav1.ObjectMeta instance) in
  let gr := {| schema.GRGroup := schema.Group gv;
               schema.Resource := autoscalingv1.Kind ref |} in
  let written :=
    {| autoscalingv1.TypeMeta := autoscalingv1.TypeMeta fetched;
       autoscalingv1.ObjectMeta := autoscalingv1.ObjectMeta fetched;
       autoscalingv1.Spec := {| autoscalingv1.Replicas := n |};
       autoscalingv1.Status := autoscalingv1.Status fetched |} in
  ParseGroupVersion lib (autoscalingv1.APIVersion ref) = inl gv →
  scales_Get r ns gr (autoscalingv1.Name ref) w2 = (inl fetched, w3) →
  scales_Update r ns gr written w3 = (updated, w4) →
  out.1 = Return reconcile.empty
            match updated with inl _ => None | inr e => Some e end
  ∧ world out.2 = w4.
Proof.
  intros Hget Hdel Hann Hparse Hdelete ref ns gr written Hgv Hscale Hupdate.
  run_reconcile.
  rewrite Hget. cbn. rewrite Hdel, Hann, Hparse. cbn.
  rewrite Hdelete. cbn. fold ref. rewrite Hgv. cbn. fold ns gr.
  rewrite Hscale. cbn.
  rewrite (int32_id n) by (by eapply ParseInt_32_bounds).
  fold written. rewrite Hupdate. by destruct updated.
Qed.

(** X6. Every object handed to the object reconciler (service account, role,
    role binding, pod) carries the label [app.kubernetes.io/managed-by] with
    value [custom-pod-autoscaler-operator] and the label
    [v1.custompodautoscaler.com/owned-by] with the name of the declared
    resource; for the pod this holds whatever the template's labels say. *)
Theorem generated_objects_carry_ownership_labels instance w1 :
  client_Get r req w = (inl instance, w1) →
  ∀ i obj p u k,
    CallReconcile i obj p u k ∈ calls out.2 →
    ∃ labels,
      metav1.Labels (metaOf obj) = Some labels
      ∧ labels !! managedByLabel = Some "custom-pod-autoscaler-operator"
      ∧ labels !! OwnedByLabel = Some (metav1.Name (cpav1.ObjectMeta instance)).
Proof.
  intros Hget. wp_explore.
  all: intros i obj p u k Hin; in_trace Hin.
  all: injection Hin as -> -> -> -> ->.
  all: repeat match goal with
              | |- context [if default false ?t then _ else _] =>
                  destruct (default false t)
              end.
  all: eexists; split; [reflexivity|].
  all: rewrite applyDefaults_ObjectMeta.
  all: split; apply standard_labels_lookup.
Qed.

(** X7. The pod's labels are the template's labels with the two ownership
    labels written over them: every other key of the template keeps its
    value, and no other key appears. *)
Theorem pod_labels_extend_template_labels instance w1 :
  client_Get r req w = (inl instance, w1) →
  ∀ i pod p u k,
    CallReconcile i (ObjPod pod) p u k ∈ calls out.2 →
    ∃ labels,
      metav1.Labels (corev1.PodObjectMeta pod) = Some labels
      ∧ ∀ key, key ≠ managedByLabel → key ≠ OwnedByLabel →
          labels !! key
          = default ∅ (metav1.Labels
                         (corev1.TemplateObjectMeta
                            (cpav1.Template (cpav1.Spec instance)))) !! key.
Proof.
  intros Hget. wp_explore.
  all: intros i pod p u k Hin; in_trace Hin.
  all: injection Hin as -> -> -> -> ->.
  all: eexists; split; [reflexivity|].
  all: intros key Hm Ho; rewrite applyDefaults_Template.
  all: rewrite (proj2 (proj2 (standard_labels_lookup _ _))) by done.
  all: by destruct (metav1.Labels _).
Qed.

(** X8. The pod takes its name and its namespace from the template when the
    template gives them, and from the declared resource when the template
    leaves them empty. *)
Theorem pod_name_defaults_to_resource instance w1 :
  client_Get r req w = (inl instance, w1) →
  ∀ i pod p u k,
    CallReconcile i (ObjPod pod) p u k ∈ calls out.2 →
    let template :=
      corev1.TemplateObjectMeta (cpav1.Template (cpav1.Spec instance)) in
    let meta := corev1.PodObjectMeta pod in
    (metav1.Name template = "" →
     metav1.Name meta = metav1.Name (cpav1.ObjectMeta instance))
    ∧ (metav1.Name template ≠ "" → metav1.Name meta = metav1.Name template)
    ∧ (metav1.Namespace template = "" →
       metav1.Namespace meta = metav1.Namespace (cpav1.ObjectMeta instance))
    ∧ (metav1.Namespace template ≠ "" →
       metav1.Namespace meta = metav1.Namespace template).
Proof.
  intros Hget. wp_explore.
  all: intros i pod p u k Hin; in_trace Hin.
  all: injection Hin as -> -> -> -> ->.
  all: cbn [corev1.PodObjectMeta metav1.Name metav1.Namespace].
  all: rewrite applyDefaults_Template, applyDefaults_ObjectMeta.
  all: destruct (String.eqb_spec
                   (metav1.Name (corev1.TemplateObjectMeta
                                   (cpav1.Template (cpav1.Spec instance)))) "");
    destruct (String.eqb_spec
                (metav1.Namespace (corev1.TemplateObjectMeta
                                     (cpav1.Template (cpav1.Spec instance)))) "").
  all: by split_and!.
Qed.

(** X9. The pod runs as the resolved identity: with identity provisioning on
    (the default) its [ServiceAccountName] is the name of the declared
    resource, overriding whatever the template names; with identity
    provisioning off it is the template's [ServiceAccountName]. *)
Theorem pod_runs_as_resolved_identity instance w1 :
  client_Get r req w = (inl instance, w1) →
  ∀ i pod p u k,
    CallReconcile i (ObjPod pod) p u k ∈ calls out.2 →
    corev1.ServiceAccountName (corev1.Spec pod)
    = if default true (cpav1.ProvisionServiceAccount (cpav1.Spec instance))
      then metav1.Name (cpav1.ObjectMeta instance)
      else corev1.ServiceAccountName
             (corev1.TemplateSpec (cpav1.Template (cpav1.Spec instance))).
Proof.
  intros Hget. wp_explore.
  all: intros i pod p u k Hin; in_trace Hin.
  all: injection Hin as -> -> -> -> ->.
  all: cbn [corev1.Spec corev1.ServiceAccountName corev1.ObjectMeta objectMetaOf
            metav1.Name].
  all: rewrite ?applyDefaults_Template, ?applyDefaults_ObjectMeta.
  all: done.
Qed.

(** X10. With identity provisioning off and an identity named in the
    template, nothing is submitted for the service account, the role or the
    role binding: the first call after the fetch hands the pod to the object
    reconciler, and the only call that can follow is the cleanup. *)
Theorem external_identity_submits_only_the_pod instance w1 :
  client_Get r req w = (inl instance, w1) →
  metav1.DeletionTimestamp (cpav1.ObjectMeta instance) = None →
  metav1.Annotations (cpav1.ObjectMeta instance) !! PausedReplicasAnnotation
    = None →
  cpav1.ProvisionServiceAccount (cpav1.Spec instance) = Some false →
  corev1.ServiceAccountName
    (corev1.TemplateSpec (cpav1.Template (cpav1.Spec instance))) ≠ "" →
  ∃ i pod p,
    calls out.2 = [CallClientGet req; CallReconcile i (ObjPod pod) p false "v1/Pod"]
    ∨ calls out.2 = [CallClientGet req;
                     CallReconcile i (ObjPod pod) p false "v1/Pod";
                     CallPodCleanup i].
Proof.
  intros Hget Hdel Hann Hpsa Hname.
  assert (default true (cpav1.ProvisionServiceAccount (cpav1.Spec instance))
          = false) as Hoff by by rewrite Hpsa.
  assert (json_Marshal lib
            (cpav1.ScaleTargetRef (cpav1.Spec (applyDefaults instance)))
          = inl (default "" (match json_Marshal lib
                               (cpav1.ScaleTargetRef
                                  (cpav1.Spec (applyDefaults instance))) with
                             | inl b => Some b
                             | inr _ => None
                             end))) as Hjson.
  { by destruct (json_Marshal_ok lib
                   (cpav1.ScaleTargetRef (cpav1.Spec (applyDefaults instance))))
      as [b ->]. }
  wp_explore.
  all: try match goal with
           | H : String.eqb _ _ = true |- _ =>
               apply String.eqb_eq in H; rewrite applyDefaults_Template in H;
               by destruct Hname
           end.
  all: eauto 6.
Qed.

(** X11. What the object reconciler is told with each object: the service
    account, the role and the role binding are updateable in place, the pod
    is not; the service account is submitted with provisioning on, the role,
    the role binding and the pod with their own toggle ([provisionRole],
    [provisionRoleBinding], [provisionPod], each true when unset), so an
    object whose toggle is false is still submitted, with provisioning off;
    the kind tags are v1/ServiceAccount, v1/Role, v1/RoleBinding, v1/Pod. *)
Theorem reconciler_flags_follow_toggles instance w1 :
  client_Get r req w = (inl instance, w1) →
  ∀ i obj p u k,
    CallReconcile i obj p u k ∈ calls (exec (Reconcile lib r req) w).2 →
    let spec := cpav1.Spec instance in
    (p, u, k)
    = match obj with
      | ObjServiceAccount _ => (true, true, "v1/ServiceAccount")
      | ObjRole _ => (default true (cpav1.ProvisionRole spec), true, "v1/Role")
      | ObjRoleBinding _ =>
          (default true (cpav1.ProvisionRoleBinding spec), true, "v1/RoleBinding")
      | ObjPod _ => (default true (cpav1.ProvisionPod spec), false, "v1/Pod")
      end.
Proof.
  intros Hget. wp_explore.
  all: intros i obj p u k Hin; in_trace Hin.
  all: injection Hin as -> -> -> -> ->.
  all: repeat match goal with
              | |- context [if default false ?t then _ else _] =>
                  destruct (default false t)
              end.
  all: try done.
  all: by match goal with H : default true _ = true |- _ => rewrite H end.
Qed.

(** X12. The first failure of the object reconciler ends the invocation:
    when it fails on every object [failing] picks, a call that submits such an
    object is the last call of the trace, and the invocation returns an
    error.  Nothing is submitted, and no cleanup runs, after a failed
    convergence. *)
Theorem first_convergence_failure_is_last_call (failing : K8sObject → bool) :
  (∀ i obj p u k w', failing obj = true →
     (k8s_Reconcile r i obj p u k w').1.2 ≠ None) →
  ∀ n i obj p u k,
    calls out.2 !! n = Some (CallReconcile i obj p u k) →
    failing obj = true →
    length (calls out.2) = S n ∧ ∃ result e, out.1 = Return result (Some e).
Proof.
  intros Hfail. wp_explore.
  all: intros n i obj p u k Hn Hobj.
  all: repeat (rewrite lookup_cons in Hn; destruct n as [|n];
               [apply (inj Some) in Hn; try discriminate Hn|]);
    try (by rewrite lookup_nil in Hn).
  all: injection Hn as <- <- <- <- <-.
  all: try (split; [reflexivity|eauto]).
  all: exfalso.
  all: repeat match goal with
              | H : ?a = (_, None) |- _ => subst a
              | H : ?o = None |- _ => subst o
              end.
  all: match goal with
       | Hc : k8s_Reconcile _ ?i ?obj ?p ?u ?k ?w' = (_, None, _),
         Ho : _ ?obj = true |- _ =>
           apply (Hfail i obj p u k w' Ho); by rewrite Hc
       end.
Qed.

(** X13. Whenever the cleanup runs, it runs on the cluster a successful
    convergence of the pod left, with the resource that convergence was
    given; the invocation then returns the result of the pod's convergence
    together with the cleanup's error (none when the cleanup succeeds), and
    the final cluster is the one the cleanup left. *)
Theorem cleanup_follows_pod_and_decides_the_error instance w1 :
  client_Get r req w = (inl instance, w1) →
  ∀ i, CallPodCleanup i ∈ calls (exec (Reconcile lib r req) w).2 →
    ∃ pod p wa wb result err,
      CallReconcile i (ObjPod pod) p false "v1/Pod"
        ∈ calls (exec (Reconcile lib r req) w).2
      ∧ k8s_Reconcile r i (ObjPod pod) p false "v1/Pod" wa = ((result, None), wb)
      ∧ k8s_PodCleanup r i wb = (err, world (exec (Reconcile lib r req) w).2)
      ∧ (exec (Reconcile lib r req) w).1 = Return result err.
Proof.
  intros Hget. wp_explore.
  all: intros i Hin; in_trace Hin.
  all: injection Hin as ->.
  all: repeat match goal with
              | H : ?a = (_, _) |- _ => subst a
              | H : ?o = None |- _ => subst o
              | H : ?o = Some _ |- _ => subst o
              end.
  all: do 6 eexists; split_and!; [|eassumption|eassumption|reflexivity].
  all: solve [repeat first [apply list_elem_of_here|apply list_elem_of_further]].
Qed.

(** X14. The pod comes last among the submitted objects: with identity
    provisioning on, every submission of the pod has a submission of the
    role binding before it; and every cleanup has a submission of the pod
    before it, whatever [provisionPod] says. *)
Theorem pod_after_binding_and_cleanup_after_pod instance w1 :
  client_Get r req w = (inl instance, w1) →
  (default true (cpav1.ProvisionServiceAccount (cpav1.Spec instance)) = true →
   precedes isReconcileRoleBinding isReconcilePod (calls out.2))
  ∧ precedes isReconcilePod isPodCleanup (calls out.2).
Proof.
  intros Hget. wp_explore.
  all: split; [intros Hon|]; first [by apply precedesb_sound|congruence].
Qed.

(** X15. The role binding binds what the same invocation submitted before
    it: its single subject is the submitted service account (kind
    ServiceAccount, same name and namespace), its role reference is the
    submitted role (kind Role, same name, group rbac.authorization.k8s.io),
    and all three are named after the declared resource, in its namespace. *)
Theorem binding_binds_submitted_role_and_account instance w1 :
  client_Get r req w = (inl instance, w1) →
  ∀ i rb p u k,
    CallReconcile i (ObjRoleBinding rb) p u k ∈ calls out.2 →
    ∃ sa role p1 p2,
      CallReconcile i (ObjServiceAccount sa) p1 true "v1/ServiceAccount"
        ∈ calls out.2
      ∧ CallReconcile i (ObjRole role) p2 true "v1/Role" ∈ calls out.2
      ∧ rbacv1.Subjects rb
        = [ {| rbacv1.Kind := "ServiceAccount";
               rbacv1.Name := metav1.Name (corev1.ObjectMeta sa);
               rbacv1.Namespace := metav1.Namespace (corev1.ObjectMeta sa) |} ]
      ∧ rbacv1.BindingRoleRef rb
        = {| rbacv1.RefKind := "Role";
             rbacv1.RefName := metav1.Name (rbacv1.ObjectMeta role);
             rbacv1.APIGroup := "rbac.authorization.k8s.io" |}
      ∧ metav1.Name (rbacv1.BindingObjectMeta rb)
        = metav1.Name (cpav1.ObjectMeta instance)
      ∧ metav1.Name (rbacv1.ObjectMeta role)
        = metav1.Name (cpav1.ObjectMeta instance)
      ∧ metav1.Namespace (rbacv1.BindingObjectMeta rb)
        = metav1.Namespace (cpav1.ObjectMeta instance)
      ∧ metav1.Namespace (rbacv1.ObjectMeta role)
        = metav1.Namespace (cpav1.ObjectMeta instance).
Proof.
  intros Hget. wp_explore.
  all: intros i rb p u k Hin; in_trace Hin.
  all: injection Hin as -> -> -> -> ->.
  all: do 4 eexists.
  all: split;
    [solve [repeat first [apply list_elem_of_here|apply list_elem_of_further]]|].
  all: split;
    [solve [repeat first [apply list_elem_of_here|apply list_elem_of_further]]|].
  all: rewrite <- (applyDefaults_ObjectMeta instance).
  all: by destruct (default false (cpav1.RoleRequiresMetricsServer _)),
            (default false (cpav1.RoleRequiresArgoRollouts _)).
Qed.

(** X17. The two ownership labels are written into the template's own label
    map when the template has one: the resource handed over with the service
    account, the role and the role binding still has the template labels as
    fetched, the one handed over with the pod has the pod's labels as its
    template labels.  A template without a label map keeps none. *)
Theorem template_labels_are_written_in_place instance w1 :
  client_Get r req w = (inl instance, w1) →
  ∀ i obj p u k,
    CallReconcile i obj p u k ∈ calls (exec (Reconcile lib r req) w).2 →
    let fetched :=
      metav1.Labels
        (corev1.TemplateObjectMeta (cpav1.Template (cpav1.Spec instance))) in
    metav1.Labels (corev1.TemplateObjectMeta (cpav1.Template (cpav1.Spec i)))
    = match obj with
      | ObjPod pod =>
          if fetched is Some _ then metav1.Labels (corev1.PodObjectMeta pod)
          else None
      | _ => fetched
      end.
Proof.
  intros Hget. wp_explore.
  all: intros i obj p u k Hin; in_trace Hin.
  all: injection Hin as -> -> -> -> ->.
  all: repeat match goal with
              | |- context [if default false ?t then _ else _] =>
                  destruct (default false t)
              end.
  all: rewrite ?applyDefaults_Template; try done.
  all: destruct (metav1.Labels
                   (corev1.TemplateObjectMeta
                      (cpav1.Template (cpav1.Spec instance)))) eqn:Hlabels;
    [done|by rewrite applyDefaults_Template].
Qed.

(** The trace of a provisioning run with identity provisioning on that
    returns without error. *)
Lemma successful_provisioning_trace instance w1 result :
  client_Get r req w = (inl instance, w1) →
  metav1.DeletionTimestamp (cpav1.ObjectMeta instance) = None →
  metav1.Annotations (cpav1.ObjectMeta instance) !! PausedReplicasAnnotation
    = None →
  default true (cpav1.ProvisionServiceAccount (cpav1.Spec instance)) = true →
  out.1 = Return result None →
  ∃ i sa role rb i' pod p1 p2 p3 p4,
    calls out.2
    = [CallClientGet req;
       CallReconcile i (ObjServiceAccount sa) p1 true "v1/ServiceAccount";
       CallReconcile i (ObjRole role) p2 true "v1/Role";
       CallReconcile i (ObjRoleBinding rb) p3 true "v1/RoleBinding";
       CallReconcile i' (ObjPod pod) p4 false "v1/Pod";
       CallPodCleanup i'].
Proof.
  intros Hget Hdel Hann Hon. wp_explore.
  all: intros Hexit; try discriminate Hexit; try congruence.
  all: by eauto 15.
Qed.

End Extras.

(** X16. Which events reach the work queue of the controller
    [SetupWithManager] builds: on the declared resource, every creation,
    update and deletion, and no generic event; on an owned pod, service
    account, role or role binding, deletions only. *)
Theorem watches_enqueue_exactly (t : builder.ObjectType) (ev : event.Event) :
  builder.enqueues SetupWithManager t ev
  = match t, ev with
    | builder.CustomPodAutoscaler, event.Generic _ => false
    | builder.CustomPodAutoscaler, _ => true
    | _, event.Delete _ => true
    | _, _ => false
    end.
Proof. by destruct t, ev. Qed.

(** ** The further properties on the sample cluster *)

(** Picks, in a trace that computes, the first call of the shape asked
    for. *)
Ltac find_call :=
  vm_compute; repeat eexists;
  solve [repeat first [apply list_elem_of_here|apply list_elem_of_further]].

(** The calls of a sample run that provisions everything and succeeds, as
    variables: [Hcalls] names the trace. *)
Ltac sample_trace i Hcalls :=
  destruct (successful_provisioning_trace apimachinery.library
              fake.collaborators sample.request (sample.cluster i) i
              (sample.cluster i) reconcile.empty
              ltac:(vm_compute; reflexivity) ltac:(vm_compute; reflexivity)
              ltac:(vm_compute; reflexivity) ltac:(vm_compute; reflexivity)
              ltac:(vm_compute; reflexivity))
    as (i1 & sa & role & rb & i2 & pod & p1 & p2 & p3 & p4 & Hcalls);
  change (calls (sample.run i).2 = [CallClientGet sample.request;
       CallReconcile i1 (ObjServiceAccount sa) p1 true "v1/ServiceAccount";
       CallReconcile i1 (ObjRole role) p2 true "v1/Role";
       CallReconcile i1 (ObjRoleBinding rb) p3 true "v1/RoleBinding";
       CallReconcile i2 (ObjPod pod) p4 false "v1/Pod";
       CallPodCleanup i2]) in Hcalls.

(** A call is in a trace given by an equation. *)
Ltac in_calls Hcalls :=
  rewrite Hcalls;
  solve [repeat first [apply list_elem_of_here|apply list_elem_of_further]].


(** X2 on a paused resource whose delete fails. *)
Lemma pause_stops_when_delete_fails_witness :
  let i := sample.autoscaler (sample.paused "3") None None None "" in
  sample2.run sample2.failDelete i
  = (Return reconcile.empty (Some sample2.unavailable),
     {| world := sample.cluster i;
        calls := [CallClientGet sample.request; CallClientDelete i] |}).
Proof.
  intros i.
  apply (pause_stops_when_delete_fails apimachinery.library
           (withFaults sample2.failDelete fake.collaborators) sample.request
           (sample.cluster i) i (sample.cluster i) "3" 3);
    (vm_compute; reflexivity).
Defined.

(** X3 on a paused resource whose scale target has apiVersion [a/b/c]. *)
Lemma pause_deletes_before_parsing_api_version_witness :
  let i := sample2.retarget
             {| autoscalingv1.Kind := "Deployment"; autoscalingv1.Name := "x";
                autoscalingv1.APIVersion := "a/b/c" |}
             (sample.autoscaler (sample.paused "3") None None None "") in
  let w2 := (client_Delete fake.collaborators i (sample.cluster i)).2 in
  sample.run i
  = (Return reconcile.empty
       (Some (OtherError "unexpected GroupVersion string: a/b/c")),
     {| world := w2;
        calls := [CallClientGet sample.request; CallClientDelete i] |})
  ∧ fake.autoscalers w2 !! ("default", "example") = None.
Proof.
  intros i w2. split.
  - apply (pause_deletes_before_parsing_api_version apimachinery.library
             fake.collaborators sample.request (sample.cluster i) i
             (sample.cluster i) "3" 3 w2);
      vm_compute; reflexivity.
  - vm_compute; reflexivity.
Defined.

(** X4 on a paused resource whose scale target [y] does not exist. *)
Lemma pause_stops_when_scale_read_fails_witness :
  let i := sample2.retarget
             {| autoscalingv1.Kind := "Deployment"; autoscalingv1.Name := "y";
                autoscalingv1.APIVersion := "apps/v1" |}
             (sample.autoscaler (sample.paused "3") None None None "") in
  let w2 := (client_Delete fake.collaborators i (sample.cluster i)).2 in
  sample.run i
  = (Return reconcile.empty (Some fake.notFound),
     {| world := w2;
        calls := [CallClientGet sample.request; CallClientDelete i;
                  CallScalesGet "default"
                    {| schema.GRGroup := "apps"; schema.Resource := "Deployment" |}
                    "y"] |}).
Proof.
  intros i w2.
  apply (pause_stops_when_scale_read_fails apimachinery.library
           fake.collaborators sample.request (sample.cluster i) i
           (sample.cluster i) "3" 3 w2
           {| schema.Group := "apps"; schema.Version := "v1" |});
    vm_compute; reflexivity.
Defined.

(** X5 on the paused sample resource: the update succeeds and the cluster
    ends with the scale target at 3 replicas. *)
Lemma pause_ends_with_the_update_outcome_witness :
  let i := sample.autoscaler (sample.paused "3") None None None "" in
  let gr := {| schema.GRGroup := "apps"; schema.Resource := "Deployment" |} in
  let w2 := (client_Delete fake.collaborators i (sample.cluster i)).2 in
  let written :=
    {| autoscalingv1.TypeMeta := autoscalingv1.TypeMeta sample.scale;
       autoscalingv1.ObjectMeta := autoscalingv1.ObjectMeta sample.scale;
       autoscalingv1.Spec := {| autoscalingv1.Replicas := 3 |};
       autoscalingv1.Status := autoscalingv1.Status sample.scale |} in
  let w4 := (scales_Update fake.collaborators "default" gr written w2).2 in
  ((sample.run i).1 = Return reconcile.empty None
   ∧ world (sample.run i).2 = w4)
  ∧ fake.scaleTargets w4 !! ("default", ("apps", ("Deployment", "x")))
    = Some written.
Proof.
  intros i gr w2 written w4. split.
  - apply (pause_ends_with_the_update_outcome apimachinery.library
             fake.collaborators sample.request (sample.cluster i) i
             (sample.cluster i) "3" 3 w2
             {| schema.Group := "apps"; schema.Version := "v1" |} sample.scale
             w2 (inl written) w4);
      vm_compute; reflexivity.
  - vm_compute; reflexivity.
Defined.

(** X6 and X7 on a resource whose template brings a label of its own and an
    [owned-by] label naming someone else. *)
Lemma generated_objects_carry_ownership_labels_witness :
  let i := sample2.withTemplateMeta sample2.labelledMeta
             (sample.autoscaler ∅ None None None "") in
  ∃ i2 pod p labels,
    CallReconcile i2 (ObjPod pod) p false "v1/Pod" ∈ calls (sample.run i).2
    ∧ metav1.Labels (corev1.PodObjectMeta pod) = Some labels
    ∧ labels !! managedByLabel = Some "custom-pod-autoscaler-operator"
    ∧ labels !! OwnedByLabel = Some "example".
Proof.
  intros i. sample_trace i Hcalls.
  assert (CallReconcile i2 (ObjPod pod) p4 false "v1/Pod" ∈ calls (sample.run i).2)
    as Hin by in_calls Hcalls.
  destruct (generated_objects_carry_ownership_labels apimachinery.library
              fake.collaborators sample.request (sample.cluster i) i
              (sample.cluster i) ltac:(vm_compute; reflexivity)
              i2 (ObjPod pod) p4 false "v1/Pod" Hin)
    as (labels & Hlabels & Hmanaged & Howned).
  exists i2, pod, p4, labels.
  split_and!; [exact Hin|exact Hlabels|exact Hmanaged|exact Howned].
Defined.

Lemma pod_labels_extend_template_labels_witness :
  let i := sample2.withTemplateMeta sample2.labelledMeta
             (sample.autoscaler ∅ None None None "") in
  ∃ i2 pod p labels,
    CallReconcile i2 (ObjPod pod) p false "v1/Pod" ∈ calls (sample.run i).2
    ∧ metav1.Labels (corev1.PodObjectMeta pod) = Some labels
    ∧ labels !! "team" = Some "platform".
Proof.
  intros i. sample_trace i Hcalls.
  assert (CallReconcile i2 (ObjPod pod) p4 false "v1/Pod" ∈ calls (sample.run i).2)
    as Hin by in_calls Hcalls.
  destruct (pod_labels_extend_template_labels apimachinery.library
              fake.collaborators sample.request (sample.cluster i) i
              (sample.cluster i) ltac:(vm_compute; reflexivity)
              i2 pod p4 false "v1/Pod" Hin)
    as (labels & Hlabels & Hkept).
  exists i2, pod, p4, labels. split_and!; [exact Hin|exact Hlabels|].
  rewrite (Hkept "team") by (vm_compute; discriminate).
  vm_compute; reflexivity.
Defined.

(** X8 on the same resource: the template names the pod [scaler] and leaves
    the namespace empty. *)
Lemma pod_name_defaults_to_resource_witness :
  let i := sample2.withTemplateMeta sample2.labelledMeta
             (sample.autoscaler ∅ None None None "") in
  ∃ i2 pod p,
    CallReconcile i2 (ObjPod pod) p false "v1/Pod" ∈ calls (sample.run i).2
    ∧ metav1.Name (corev1.PodObjectMeta pod) = "scaler"
    ∧ metav1.Namespace (corev1.PodObjectMeta pod) = "default".
Proof.
  intros i. sample_trace i Hcalls.
  assert (CallReconcile i2 (ObjPod pod) p4 false "v1/Pod" ∈ calls (sample.run i).2)
    as Hin by in_calls Hcalls.
  destruct (pod_name_defaults_to_resource apimachinery.library
              fake.collaborators sample.request (sample.cluster i) i
              (sample.cluster i) ltac:(vm_compute; reflexivity)
              i2 pod p4 false "v1/Pod" Hin)
    as (_ & Hname & Hnamespace & _).
  exists i2, pod, p4. split_and!; [exact Hin| |].
  - apply Hname. vm_compute; discriminate.
  - apply Hnamespace. vm_compute; reflexivity.
Defined.

(** X9 on the sample resource, identity provisioning on by default. *)
Lemma pod_runs_as_resolved_identity_witness :
  let i := sample.autoscaler ∅ None None None "" in
  ∃ i2 pod p,
    CallReconcile i2 (ObjPod pod) p false "v1/Pod" ∈ calls (sample.run i).2
    ∧ corev1.ServiceAccountName (corev1.Spec pod) = "example".
Proof.
  intros i. sample_trace i Hcalls.
  assert (CallReconcile i2 (ObjPod pod) p4 false "v1/Pod" ∈ calls (sample.run i).2)
    as Hin by in_calls Hcalls.
  exists i2, pod, p4. split; [exact Hin|].
  exact (pod_runs_as_resolved_identity apimachinery.library
           fake.collaborators sample.request (sample.cluster i) i
           (sample.cluster i) ltac:(vm_compute; reflexivity)
           i2 pod p4 false "v1/Pod" Hin).
Defined.

(** X10 on a resource with identity provisioning off that names the
    identity [external]. *)
Lemma external_identity_submits_only_the_pod_witness :
  let j := sample.autoscaler ∅ None (Some false) None "external" in
  ∃ i pod p,
    calls (sample.run j).2
    = [CallClientGet sample.request; CallReconcile i (ObjPod pod) p false "v1/Pod"]
    ∨ calls (sample.run j).2
      = [CallClientGet sample.request;
         CallReconcile i (ObjPod pod) p false "v1/Pod";
         CallPodCleanup i].
Proof.
  intros j.
  apply (external_identity_submits_only_the_pod apimachinery.library
           fake.collaborators sample.request (sample.cluster j) j
           (sample.cluster j));
    vm_compute; first [reflexivity|discriminate].
Defined.

(** X11 on a resource with [provisionRole] false: the role is still
    submitted, with provisioning off. *)
Lemma reconciler_flags_follow_toggles_witness :
  let i := sample.autoscaler ∅ None None (Some false) "" in
  ∃ i1 role, CallReconcile i1 (ObjRole role) false true "v1/Role"
             ∈ calls (sample.run i).2.
Proof.
  intros i. sample_trace i Hcalls.
  assert (CallReconcile i1 (ObjRole role) p2 true "v1/Role" ∈ calls (sample.run i).2)
    as Hin by in_calls Hcalls.
  exists i1, role.
  pose proof (reconciler_flags_follow_toggles apimachinery.library
                fake.collaborators sample.request (sample.cluster i) i
                (sample.cluster i) ltac:(vm_compute; reflexivity)
                i1 (ObjRole role) p2 true "v1/Role" Hin) as Hflags.
  injection Hflags as ->. exact Hin.
Defined.

(** X12 on a cluster whose object reconciler fails on roles. *)
Lemma first_convergence_failure_is_last_call_witness :
  let i := sample.autoscaler ∅ None None None "" in
  let tr := calls (sample2.run sample2.failRole i).2 in
  ∃ i1 role p u k,
    tr !! 2%nat = Some (CallReconcile i1 (ObjRole role) p u k)
    ∧ length tr = 3%nat
    ∧ ∃ result e, (sample2.run sample2.failRole i).1 = Return result (Some e).
Proof.
  intros i tr.
  assert (∃ i1 role p u k,
            tr !! 2%nat = Some (CallReconcile i1 (ObjRole role) p u k))
    as (i1 & role & p & u & k & Hn).
  { vm_compute. by repeat eexists. }
  exists i1, role, p, u, k. split; [exact Hn|].
  apply (first_convergence_failure_is_last_call apimachinery.library
           (withFaults sample2.failRole fake.collaborators) sample.request
           (sample.cluster i)
           (λ obj, isReconcileRole (CallReconcile i obj true true ""))
           ltac:(by intros ? [] ? ? ? ?)
           2%nat i1 (ObjRole role) p u k Hn eq_refl).
Defined.

(** X13 on the sample resource and on a cluster whose cleanup fails. *)
Lemma cleanup_follows_pod_and_decides_the_error_witness :
  let i := sample.autoscaler ∅ None None None "" in
  ∃ i1 pod p wa wb result,
    CallPodCleanup i1 ∈ calls (sample2.run sample2.failCleanup i).2
    ∧ CallReconcile i1 (ObjPod pod) p false "v1/Pod"
        ∈ calls (sample2.run sample2.failCleanup i).2
    ∧ k8s_Reconcile (withFaults sample2.failCleanup fake.collaborators)
        i1 (ObjPod pod) p false "v1/Pod" wa = ((result, None), wb)
    ∧ (sample2.run sample2.failCleanup i).1
      = Return result (Some sample2.unavailable).
Proof.
  intros i.
  assert (∃ i1, CallPodCleanup i1 ∈ calls (sample2.run sample2.failCleanup i).2)
    as (i1 & Hin) by find_call.
  destruct (cleanup_follows_pod_and_decides_the_error apimachinery.library
              (withFaults sample2.failCleanup fake.collaborators)
              sample.request (sample.cluster i) i (sample.cluster i)
              ltac:(vm_compute; reflexivity) i1 Hin)
    as (pod & p & wa & wb & result & err & Hpod & Hconverged & Hcleanup & Hexit).
  exists i1, pod, p, wa, wb, result. split_and!; [done..|].
  etrans; [exact Hexit|]. f_equal.
  change (k8s_PodCleanup (withFaults sample2.failCleanup fake.collaborators) i1 wb)
    with (Some sample2.unavailable, wb) in Hcleanup.
  by injection Hcleanup as <- _.
Defined.

(** X14 on the sample resource. *)
Lemma pod_after_binding_and_cleanup_after_pod_witness :
  let i := sample.autoscaler ∅ None None None "" in
  precedes isReconcileRoleBinding isReconcilePod (calls (sample.run i).2)
  ∧ precedes isReconcilePod isPodCleanup (calls (sample.run i).2).
Proof.
  intros i.
  destruct (pod_after_binding_and_cleanup_after_pod apimachinery.library
              fake.collaborators sample.request (sample.cluster i) i
              (sample.cluster i) ltac:(vm_compute; reflexivity))
    as [Hbinding Hcleanup].
  split; [apply Hbinding; vm_compute; reflexivity|exact Hcleanup].
Defined.

(** X15 on the sample resource. *)
Lemma binding_binds_submitted_role_and_account_witness :
  let i := sample.autoscaler ∅ None None None "" in
  ∃ i1 sa role rb p,
    CallReconcile i1 (ObjRoleBinding rb) p true "v1/RoleBinding"
      ∈ calls (sample.run i).2
    ∧ rbacv1.Subjects rb
      = [ {| rbacv1.Kind := "ServiceAccount";
             rbacv1.Name := metav1.Name (corev1.ObjectMeta sa);
             rbacv1.Namespace := metav1.Namespace (corev1.ObjectMeta sa) |} ]
    ∧ rbacv1.BindingRoleRef rb
      = {| rbacv1.RefKind := "Role";
           rbacv1.RefName := metav1.Name (rbacv1.ObjectMeta role);
           rbacv1.APIGroup := "rbac.authorization.k8s.io" |}
    ∧ metav1.Name (rbacv1.ObjectMeta role) = "example"
    ∧ metav1.Namespace (rbacv1.ObjectMeta role) = "default".
Proof.
  intros i. sample_trace i Hcalls.
  assert (CallReconcile i1 (ObjRoleBinding rb) p3 true "v1/RoleBinding"
            ∈ calls (sample.run i).2)
    as Hin by in_calls Hcalls.
  destruct (binding_binds_submitted_role_and_account apimachinery.library
              fake.collaborators sample.request (sample.cluster i) i
              (sample.cluster i) ltac:(vm_compute; reflexivity)
              i1 rb p3 true "v1/RoleBinding" Hin)
    as (sa' & role' & q1 & q2 & _ & _ & Hsubjects & Href & _ & Hname & _
        & Hnamespace).
  exists i1, sa', role', rb, p3.
  split_and!; [exact Hin|exact Hsubjects|exact Href|exact Hname|exact Hnamespace].
Defined.

(** X17 on the resource whose template has a label map. *)
Lemma template_labels_are_written_in_place_witness :
  let i := sample2.withTemplateMeta sample2.labelledMeta
             (sample.autoscaler ∅ None None None "") in
  ∃ i2 pod p,
    CallReconcile i2 (ObjPod pod) p false "v1/Pod" ∈ calls (sample.run i).2
    ∧ metav1.Labels (corev1.TemplateObjectMeta (cpav1.Template (cpav1.Spec i2)))
      = metav1.Labels (corev1.PodObjectMeta pod).
Proof.
  intros i. sample_trace i Hcalls.
  assert (CallReconcile i2 (ObjPod pod) p4 false "v1/Pod" ∈ calls (sample.run i).2)
    as Hin by in_calls Hcalls.
  exists i2, pod, p4. split; [exact Hin|].
  exact (template_labels_are_written_in_place apimachinery.library
           fake.collaborators sample.request (sample.cluster i) i
           (sample.cluster i) ltac:(vm_compute; reflexivity)
           i2 (ObjPod pod) p4 false "v1/Pod" Hin).
Defined.
